(** * netatmoapi: typed object layer, weekly timetable resolution, grants

    A shallow embedding of [netatmoapi/object/_common.py],
    [netatmoapi/object/_data.py] and [netatmoapi/grant.py], with the parts
    of Python's [datetime] and of [pytz] that they call. *)

From Stdlib Require Import ZArith List String Bool Lia.
From Stdlib Require Import Sorting.Sorted Sorting.Permutation.
Import ListNotations.

Set Warnings "-register-all".

Local Open Scope string_scope.
Local Open Scope list_scope.
Local Open Scope Z_scope.

(** ** Exceptions and results *)

(** Values kept by the object layer: what [Object._assign] hands to its
    [method] argument.  [NSeq] is a [SequenceObject] (its [_sequence]),
    [NMap] a [MappingObject] (its [_mapping], a dict, kept in insertion
    order).  A float is carried by its IEEE-754 bit pattern: the code never
    computes with it. *)
Inductive Node : Type :=
| NNone
| NBool (b : bool)
| NInt (z : Z)
| NFloat (bits : Z)
| NStr (s : string)
| NSeq (l : list Node)
| NMap (m : list (string * Node)).

(** The exceptions the two modules raise or let through.  The first four are
    the classes of [_common.py]; the others are Python's built-in ones. *)
Inductive exn : Type :=
| ObjectAttributeError (name : string)
| ObjectDataError
| ObjectIdError
| ObjectTypeError (name : string) (value : Node)
| ValueError (msg : string)
| TypeError (msg : string)
| IndexError (msg : string)
| AttributeError (msg : string)
| RecursionError.

Inductive result (A : Type) : Type :=
| Ok (a : A)
| Raise (e : exn).
Arguments Ok {A} a.
Arguments Raise {A} e.

Definition bind {A B : Type} (r : result A) (k : A -> result B) : result B :=
  match r with
  | Ok a => k a
  | Raise e => Raise e
  end.

Notation "x <- c1 ;; c2" := (bind c1 (fun x => c2))
  (at level 61, c1 at next level, right associativity).

Definition raises {A : Type} (r : result A) : Prop :=
  exists e, r = Raise e.

(** ** Decoded JSON values (the arguments of the constructors) *)

(** A Python value as the object layer can receive it.  [PyList] stands for
    any [collections.abc.Sequence] other than [str] (list, tuple), [PyDict]
    for any [Mapping] with string keys, [PyOther] for a value that is none
    of these (a set, a complex number, an arbitrary object), named by its
    type. *)
Inductive pyobj : Type :=
| PyNone
| PyBool (b : bool)
| PyInt (z : Z)
| PyFloat (bits : Z)
| PyStr (s : string)
| PyList (l : list pyobj)
| PyDict (d : list (string * pyobj))
| PyOther (tyname : string).

(** The four scalar types [_assign] and the typed getters test against. *)
Inductive pytype : Type := t_bool | t_int | t_float | t_str.

(** [isinstance(item, type_)] on a decoded value; [bool] is a subclass of
    [int] in Python. *)
Definition isinstance_obj (item : pyobj) (type_ : pytype) : bool :=
  match type_, item with
  | t_bool, PyBool _ => true
  | t_int, PyInt _ => true
  | t_int, PyBool _ => true
  | t_float, PyFloat _ => true
  | t_str, PyStr _ => true
  | _, _ => false
  end.

(** [type_(item)] for an [item] that is an instance of [type_]; [int(True)]
    is [1]. *)
Definition construct (type_ : pytype) (item : pyobj) : Node :=
  match type_, item with
  | t_bool, PyBool b => NBool b
  | t_int, PyInt z => NInt z
  | t_int, PyBool b => NInt (Z.b2z b)
  | t_float, PyFloat f => NFloat f
  | t_str, PyStr s => NStr s
  | _, _ => NNone
  end.

(** [dict.__setitem__]: replace the value of an existing key in place, or
    append a new entry. *)
Fixpoint setitem {V : Type} (m : list (string * V)) (key : string) (v : V)
  : list (string * V) :=
  match m with
  | [] => [(key, v)]
  | (k, w) :: rest =>
      if String.eqb k key then (k, v) :: rest else (k, w) :: setitem rest key v
  end.

(** [dict.__getitem__]; [None] stands for [KeyError]. *)
Fixpoint getitem {V : Type} (m : list (string * V)) (key : string) : option V :=
  match m with
  | [] => None
  | (k, w) :: rest => if String.eqb k key then Some w else getitem rest key
  end.

(** ** [_common.py] *)

(** What [raise ObjectDataError(self, item)] does: the class defines
    [__init__(self)] with no further parameter, so the call that builds the
    exception fails and a [TypeError] propagates in its place. *)
Definition data_error_message : string :=
  "ObjectDataError.__init__() takes 1 positional argument but 3 were given".

Definition raise_ObjectDataError {A : Type} : result A :=
  Raise (TypeError data_error_message).

(** The loops of [SequenceObject.__init__] and [MappingObject.__init__]
    over the items of their argument: each item goes through [_assign]
    (the parameter [assign]) with [method] set to [list.append],
    respectively to [dict.__setitem__] at the item's key. *)
Section init.
Variable assign : pyobj -> result Node.

Fixpoint SequenceObject_init (sequence : list pyobj) (_sequence : list Node)
  : result (list Node) :=
  match sequence with
  | [] => Ok _sequence
  | item :: rest =>
      v <- assign item ;;
      SequenceObject_init rest (_sequence ++ [v])
  end.

Fixpoint MappingObject_init (items : list (string * pyobj))
  (_mapping : list (string * Node)) : result (list (string * Node)) :=
  match items with
  | [] => Ok _mapping
  | (key, value) :: rest =>
      v <- assign value ;;
      MappingObject_init rest (setitem _mapping key v)
  end.
End init.

(** [Object._assign], returning the value it passes to [method]. *)
Fixpoint _assign (item : pyobj) : result Node :=
  match item with
  | PyNone => Ok NNone
  | _ =>
      match find (isinstance_obj item) [t_bool; t_int; t_float; t_str] with
      | Some type_ => Ok (construct type_ item)
      | None =>
          match item with
          | PyList sequence =>
              _sequence <- SequenceObject_init _assign sequence [] ;;
              Ok (NSeq _sequence)
          | PyDict mapping =>
              _mapping <- MappingObject_init _assign mapping [] ;;
              Ok (NMap _mapping)
          | _ => raise_ObjectDataError
          end
      end
  end.

(** [SequenceObject(sequence)] and [MappingObject(mapping)]. *)
Definition SequenceObject (sequence : list pyobj) : result (list Node) :=
  SequenceObject_init _assign sequence [].

Definition MappingObject (mapping : list (string * pyobj))
  : result (list (string * Node)) :=
  MappingObject_init _assign mapping [].

(** [isinstance(value, type_)] on a stored value. *)
Definition isinstance (value : Node) (type_ : pytype) : bool :=
  match type_, value with
  | t_bool, NBool _ => true
  | t_int, NInt _ => true
  | t_int, NBool _ => true
  | t_float, NFloat _ => true
  | t_str, NStr _ => true
  | _, _ => false
  end.

(** [MappingObject._get_type] on the object's [_mapping]. *)
Definition _get_type (self : list (string * Node)) (key : string)
  (type_ : pytype) : result Node :=
  match getitem self key with
  | Some value =>
      if negb (isinstance value type_)
      then Raise (ObjectTypeError key value)
      else Ok value
  | None => Raise (ObjectAttributeError key)
  end.

Definition _get_str (self : list (string * Node)) (key : string) :=
  _get_type self key t_str.

Definition _get_int (self : list (string * Node)) (key : string) :=
  _get_type self key t_int.

Definition _get_bool (self : list (string * Node)) (key : string) :=
  _get_type self key t_bool.

(** ** Python's [datetime], as far as [_data.py] uses it

    A wall-clock value is a number of microseconds since
    1970-01-01T00:00:00 on the proleptic Gregorian calendar, so a date is a
    day number and every operation below is day arithmetic.  The calendar is
    unbounded here; Python limits it to the years 1 to 9999 and raises
    [OverflowError] outside.  The [fold] attribute is left out: neither
    fixed-offset zones nor pytz read it. *)

Definition us_per_second : Z := 1000000.
Definition us_per_minute : Z := 60 * us_per_second.
Definition us_per_hour : Z := 60 * us_per_minute.
Definition us_per_day : Z := 24 * us_per_hour.

(** One entry of pytz's [_transition_info]: [(utcoffset, dst, tzname)], the
    two durations in microseconds. *)
Record tzperiod : Type := mk_period {
  p_utcoffset : Z;
  p_dst : Z;
  p_tzname : string
}.

(** The tables of a pytz [DstTzInfo] zone.  [tz_first] is
    [_transition_info[0]], which pytz files under [datetime.min];
    [tz_transitions] pairs the remaining [_utc_transition_times] with their
    [_transition_info], in ascending order of time. *)
Record DstTzInfo : Type := mk_zone {
  tz_first : tzperiod;
  tz_transitions : list (Z * tzperiod)
}.

(** A [tzinfo] object: a fixed offset ([datetime.timezone], [pytz.utc], a
    pytz [StaticTzInfo]), or an instance of a pytz [DstTzInfo] zone, which
    is bound to one period of the zone and shares the zone's tables. *)
Inductive tzinfo : Type :=
| FixedOffset (offset : Z)
| PytzDst (zone : DstTzInfo) (period : tzperiod).

(** [pytz.timezone(name)] returns the instance bound to the first period. *)
Definition timezone (zone : DstTzInfo) : tzinfo := PytzDst zone (tz_first zone).

Record datetime : Type := mk_datetime {
  wall : Z;
  dt_tzinfo : option tzinfo
}.

Definition tzperiod_eqb (p q : tzperiod) : bool :=
  (p_utcoffset p =? p_utcoffset q) && (p_dst p =? p_dst q)
  && String.eqb (p_tzname p) (p_tzname q).

Fixpoint transitions_eqb (l m : list (Z * tzperiod)) : bool :=
  match l, m with
  | [], [] => true
  | (t, p) :: l', (u, q) :: m' =>
      (t =? u) && tzperiod_eqb p q && transitions_eqb l' m'
  | _, _ => false
  end.

(** [tz is self.tzinfo]: pytz keeps one zone object per name and one
    instance per period, so identity is equality of tables and period. *)
Definition tzinfo_is (a b : tzinfo) : bool :=
  match a, b with
  | FixedOffset x, FixedOffset y => x =? y
  | PytzDst z p, PytzDst y q =>
      tzperiod_eqb (tz_first z) (tz_first y)
      && transitions_eqb (tz_transitions z) (tz_transitions y)
      && tzperiod_eqb p q
  | _, _ => false
  end.

(** [tzinfo.utcoffset(dt)]: constant for both kinds of object. *)
Definition utcoffset (tz : tzinfo) : Z :=
  match tz with
  | FixedOffset offset => offset
  | PytzDst _ period => p_utcoffset period
  end.

(** The instant of a datetime, in microseconds since the epoch in UTC.
    Python compares, orders and hashes aware datetimes by it.  For a naive
    datetime it is the wall-clock value itself. *)
Definition instant (dt : datetime) : Z :=
  match dt_tzinfo dt with
  | Some tz => wall dt - utcoffset tz
  | None => wall dt
  end.

Definition dt_lt (a b : datetime) : bool := instant a <? instant b.
Definition dt_gt (a b : datetime) : bool := instant b <? instant a.

(** [dt.date()], [dt.time()], [datetime.combine(date, time)],
    [date.weekday()] (Monday is 0; 1970-01-01 was a Thursday). *)
Definition date (dt : datetime) : Z := wall dt / us_per_day.
Definition time_of (dt : datetime) : Z := wall dt mod us_per_day.
Definition combine (date time : Z) : datetime :=
  mk_datetime (date * us_per_day + time) None.
Definition weekday (dt : datetime) : Z := (date dt + 3) mod 7.

(** [time(hour=h, minute=m)]. *)
Definition time (hour minute : Z) : Z :=
  hour * us_per_hour + minute * us_per_minute.

(** [dt.replace(tzinfo=tz)]. *)
Definition replace_tzinfo (dt : datetime) (tz : option tzinfo) : datetime :=
  mk_datetime (wall dt) tz.

(** A normalised [timedelta]. *)
Record timedelta : Type := mk_timedelta {
  days : Z;
  seconds : Z;
  microseconds : Z
}.

(** [timedelta(minutes=m)]: Python normalises to [0 <= seconds < 86400]
    with floor division, also for a negative [m]. *)
Definition timedelta_minutes (m : Z) : timedelta :=
  mk_timedelta ((m * 60) / 86400) ((m * 60) mod 86400) 0.

(** ** pytz's [DstTzInfo] *)

(** [_transition_info[max(0, bisect_right(_utc_transition_times, t) - 1)]]:
    the period of the last transition at or before [t]. *)
Fixpoint period_from (current : tzperiod) (transitions : list (Z * tzperiod))
  (t : Z) : tzperiod :=
  match transitions with
  | [] => current
  | (u, p) :: rest => if u <=? t then period_from p rest t else current
  end.

Definition period_at (zone : DstTzInfo) (t : Z) : tzperiod :=
  period_from (tz_first zone) (tz_transitions zone) t.

(** [DstTzInfo.fromutc] on the wall-clock value of a UTC datetime. *)
Definition fromutc (zone : DstTzInfo) (utc : Z) : datetime :=
  let inf := period_at zone utc in
  mk_datetime (utc + p_utcoffset inf) (Some (PytzDst zone inf)).

(** [DstTzInfo.normalize] on a datetime of this zone bound to [period]. *)
Definition normalize (zone : DstTzInfo) (w : Z) (period : tzperiod)
  : datetime :=
  fromutc zone (w - p_utcoffset period).

(** Python's default recursion limit, which bounds the recursion of
    [localize] on a nonexistent time. *)
Definition recursion_limit : nat := 1000.

Definition bound_period (dt : datetime) : tzperiod :=
  match dt_tzinfo dt with
  | Some (PytzDst _ p) => p
  | _ => mk_period 0 0 ""
  end.

(** The first part of [DstTzInfo.localize]: the candidates come from the
    periods in force one day before and one day after [dt]; a candidate
    counts when it reads [dt] on the wall clock.  [possible_loc_dt] is a
    set of aware datetimes, so two candidates at the same instant count
    once. *)
Definition possible_loc_dt (zone : DstTzInfo) (dt : Z) : list datetime :=
  let candidate (delta : Z) : datetime :=
    normalize zone dt (period_at zone (dt + delta)) in
  match filter (fun loc_dt => wall loc_dt =? dt)
               [candidate (- us_per_day); candidate us_per_day] with
  | [c1; c2] => if instant c1 =? instant c2 then [c1] else [c1; c2]
  | found => found
  end.

(** The choice among two or more candidates: the one whose [dst] agrees
    with [is_dst] when there is exactly one, otherwise the latest by UTC
    for [is_dst=False] and the earliest for [is_dst=True]. *)
Definition by_utc (is_dst : bool) (a b : datetime) : datetime :=
  if is_dst then (if instant b <? instant a then b else a)
  else (if instant a <? instant b then b else a).

Definition choose_ambiguous (possible : list datetime) (is_dst : bool)
  (first : datetime) : datetime :=
  match filter (fun p => Bool.eqb (negb (p_dst (bound_period p) =? 0)) is_dst)
               possible with
  | [p] => p
  | [] => fold_left (by_utc is_dst) possible first
  | p :: filtered => fold_left (by_utc is_dst) filtered p
  end.

(** [DstTzInfo.localize(dt, is_dst)] for [is_dst] in [(False, True)].  No
    candidate: the time does not exist, and the answer is that of the time
    six hours earlier (later for [is_dst=True]) moved back by the same six
    hours, tzinfo unchanged.  The recursion is cut at [depth]. *)
Fixpoint localize_rec (depth : nat) (zone : DstTzInfo) (dt : Z)
  (is_dst : bool) : result datetime :=
  match possible_loc_dt zone dt with
  | [loc_dt] => Ok loc_dt
  | [] =>
      match depth with
      | O => Raise RecursionError
      | S depth' =>
          if is_dst then
            loc <- localize_rec depth' zone (dt + 6 * us_per_hour) true ;;
            Ok (mk_datetime (wall loc - 6 * us_per_hour) (dt_tzinfo loc))
          else
            loc <- localize_rec depth' zone (dt - 6 * us_per_hour) false ;;
            Ok (mk_datetime (wall loc + 6 * us_per_hour) (dt_tzinfo loc))
      end
  | first :: _ => Ok (choose_ambiguous (possible_loc_dt zone dt) is_dst first)
  end.

(** [tz.localize(dt)], with the default [is_dst=False]. *)
Definition localize (zone : DstTzInfo) (dt : datetime) : result datetime :=
  match dt_tzinfo dt with
  | Some _ => Raise (ValueError "Not naive datetime (tzinfo is already set)")
  | None => localize_rec recursion_limit zone (wall dt) false
  end.

(** [dt.astimezone(tz)] for an aware [dt]: the same instant read in [tz].
    A naive [dt] is not passed by the code below (Python would read it in
    the system's local zone; it is read as UTC here). *)
Definition astimezone (dt : datetime) (tz : tzinfo) : datetime :=
  match dt_tzinfo dt with
  | Some mytz =>
      if tzinfo_is tz mytz then dt
      else
        let utc := wall dt - utcoffset mytz in
        match tz with
        | FixedOffset offset => mk_datetime (utc + offset) (Some tz)
        | PytzDst zone _ => fromutc zone utc
        end
  | None =>
      match tz with
      | FixedOffset offset => mk_datetime (wall dt + offset) (Some tz)
      | PytzDst zone _ => fromutc zone (wall dt)
      end
  end.

(** ** [_data.py] *)

Definition _dt_localize (dt : datetime) (tz : option tzinfo)
  : result datetime :=
  match tz with
  | Some (PytzDst zone _) => localize zone dt
  | _ => Ok (replace_tzinfo dt tz)
  end.

Definition _dt_add_days (dt : datetime) (days : Z) : result datetime :=
  _dt_localize (combine (date dt + days) (time_of dt)) (dt_tzinfo dt).

(** The integer a value accepted by [_get_int] stands for ([True] is [1]). *)
Definition int_value (v : Node) : Z :=
  match v with
  | NInt z => z
  | NBool b => Z.b2z b
  | _ => 0
  end.

Module Timepoint.

Record t : Type := mk {
  _mapping : list (string * Node);
  _timezone : tzinfo
}.

Definition zone_id (self : t) : result Node :=
  _get_int (_mapping self) "zone_id".

Definition m_offset (self : t) : result Node :=
  _get_int (_mapping self) "m_offset".

Definition get_timedelta (self : t) : result timedelta :=
  m <- m_offset self ;;
  Ok (timedelta_minutes (int_value m)).

Definition get_datetime (self : t) (week : datetime) (home_timezone : bool)
  : result datetime :=
  match dt_tzinfo week with
  | None => Raise (ValueError "Week must be aware datetime")
  | Some week_timezone =>
      let week := astimezone week (_timezone self) in
      week_start <-
        _dt_localize (combine (date week + - weekday week) 0)
                     (dt_tzinfo week) ;;
      td <- get_timedelta self ;;
      let dt :=
        combine (date week_start + days td)
                (time (seconds td / 3600) (seconds td / 60 mod 60)) in
      dt <- _dt_localize dt (Some (_timezone self)) ;;
      Ok (if home_timezone then dt else astimezone dt week_timezone)
  end.

End Timepoint.

(** [list.sort(key=lambda x: x[0])]: a stable sort that compares keys with
    [<] only. *)
Fixpoint insert_sorted {A : Type} (x : datetime * A) (l : list (datetime * A))
  : list (datetime * A) :=
  match l with
  | [] => [x]
  | y :: rest =>
      if dt_lt (fst y) (fst x) then y :: insert_sorted x rest
      else x :: y :: rest
  end.

Fixpoint sort_by_datetime {A : Type} (l : list (datetime * A))
  : list (datetime * A) :=
  match l with
  | [] => []
  | x :: rest => insert_sorted x (sort_by_datetime rest)
  end.

(** [l[0]] and [l[-1]]. *)
Definition index_first {A : Type} (l : list A) : result A :=
  match l with
  | [] => Raise (IndexError "list index out of range")
  | x :: _ => Ok x
  end.

Definition index_last {A : Type} (l : list A) : result A :=
  match rev l with
  | [] => Raise (IndexError "list index out of range")
  | x :: _ => Ok x
  end.

(** What a generator has done after a bounded number of steps: the items
    it has yielded, and whether it is still running, has returned, or has
    raised. *)
Inductive status : Type :=
| Running
| Returned
| Raised (e : exn).

Fixpoint mapM {A B : Type} (f : A -> result B) (l : list A)
  : result (list B) :=
  match l with
  | [] => Ok []
  | x :: rest =>
      y <- f x ;;
      ys <- mapM f rest ;;
      Ok (y :: ys)
  end.

(** Reading an attribute that neither the instance nor any class of its
    type defines: Python raises [AttributeError] with this message. *)
Definition no_attribute {A : Type} (cls name : string) : result A :=
  Raise (AttributeError
           (String.append "'"
              (String.append cls
                 (String.append "' object has no attribute '"
                    (String.append name "'"))))).

(** ** Stored values as arguments *)

(** [type(value).__name__] of a stored value. *)
Definition type_name (value : Node) : string :=
  match value with
  | NNone => "NoneType"
  | NBool _ => "bool"
  | NInt _ => "int"
  | NFloat _ => "float"
  | NStr _ => "str"
  | NSeq _ => "SequenceObject"
  | NMap _ => "MappingObject"
  end.

(** A stored value seen as an argument of a constructor, as in
    [HomeData(item) for item in self]: a [SequenceObject] is a
    [Sequence] whose iteration gives its items, a [MappingObject] is a
    [Mapping] whose [items()] gives its keys with their values. *)
Fixpoint as_obj (value : Node) : pyobj :=
  match value with
  | NNone => PyNone
  | NBool b => PyBool b
  | NInt z => PyInt z
  | NFloat f => PyFloat f
  | NStr s => PyStr s
  | NSeq l => PyList (map as_obj l)
  | NMap m => PyDict (map (fun kv => (fst kv, as_obj (snd kv))) m)
  end.

(** [cls(item)] for a class derived from [MappingObject], on a stored
    item: [MappingObject.__init__] calls [mapping.items()], which only a
    mapping has. *)
Definition wrap_mapping (item : Node) : result (list (string * Node)) :=
  match item with
  | NMap m =>
      MappingObject_init _assign
        (map (fun kv => (fst kv, as_obj (snd kv))) m) []
  | _ => no_attribute (type_name item) "items"
  end.

(** [l[i]] for a Python list: a negative index counts from the end;
    [None] stands for [IndexError]. *)
Definition py_index {A : Type} (l : list A) (i : Z) : option A :=
  let n := Z.of_nat (List.length l) in
  let j := if i <? 0 then i + n else i in
  if (j <? 0) || (n <=? j) then None else nth_error l (Z.to_nat j).

Module Timetable.

(** A [Timetable] is a [SequenceObject] that also keeps the home's time
    zone: [__init__] sets [_sequence] and [_timezone], nothing else. *)
Record t : Type := mk {
  _sequence : list Node;
  _timezone : tzinfo
}.

Definition week_item : Type := (datetime * Timepoint.t)%type.

(** [get_index]: the [IndexError] of [self[timepoint_index]] gives
    [None]; any other error of the construction of the [Timepoint]
    passes. *)
Definition get_index (self : t) (timepoint_index : Z)
  : result (option Timepoint.t) :=
  match py_index (_sequence self) timepoint_index with
  | None => Ok None
  | Some item =>
      _mapping <- wrap_mapping item ;;
      Ok (Some (Timepoint.mk _mapping (_timezone self)))
  end.

(** [self.timetable], [self.type] and [self.get_week_timepoints].
    [Timetable] and its bases [SequenceObject], [Sequence] and [Object]
    define none of the three names ([timetable] and [type] are properties
    of [Schedule]), and none of them has a [__getattr__]: each read raises
    [AttributeError]. *)
Definition timetable (self : t) : result (list Timepoint.t) :=
  no_attribute "Timetable" "timetable".

Definition type (self : t) : result string :=
  no_attribute "Timetable" "type".

Definition get_week_timepoints (self : t)
  : result (datetime -> bool -> result (list week_item)) :=
  no_attribute "Timetable" "get_week_timepoints".

(** [self.type in ("therm", "cooling")]. *)
Definition is_slot_type (type : string) : bool :=
  String.eqb type "therm" || String.eqb type "cooling".

(** The list comprehension of [get_week] over the value of
    [self.timetable]:
    [[(timepoint.get_datetime(week, home_tz), timepoint) for timepoint in
    self.timetable]]. *)
Definition resolve (timetable : list Timepoint.t) (week : datetime)
  (home_tz : bool) : result (list week_item) :=
  mapM (fun timepoint =>
          dt <- Timepoint.get_datetime timepoint week home_tz ;;
          Ok (dt, timepoint))
       timetable.

Definition get_week (self : t) (week : datetime) (home_tz : bool)
  : result (list week_item) :=
  match dt_tzinfo week with
  | None => Raise (ValueError "week must be aware datetime")
  | Some _ =>
      timetable <- timetable self ;;
      week_timepoints <- resolve timetable week home_tz ;;
      type <- type self ;;
      week_timepoints <-
        (if is_slot_type type then
           (* [if not week_timepoints: ValueError(...)] builds the
              exception and drops it: there is no [raise]. *)
           first <- index_first week_timepoints ;;
           first_zone <- Timepoint.zone_id (snd first) ;;
           last <- index_last week_timepoints ;;
           last_zone <- Timepoint.zone_id (snd last) ;;
           if int_value first_zone =? int_value last_zone
           then Ok (tl week_timepoints)
           else Ok week_timepoints
         else Ok week_timepoints) ;;
      Ok (sort_by_datetime week_timepoints)
  end.

(** The [for] loop of [get_period] over one resolved week, from a given
    [count]: the items yielded, the new [count], and whether the loop
    left through [return]. *)
Fixpoint for_week (items : list week_item) (dt_from dt_to : datetime)
  (count_max : option Z) (count : Z) : list week_item * Z * bool :=
  match items with
  | [] => ([], count, false)
  | (datetime_, timepoint) :: rest =>
      if match count_max with
         | Some m => count =? m
         | None => false
         end || dt_gt datetime_ dt_to
      then ([], count, true)
      else if dt_lt datetime_ dt_from
      then for_week rest dt_from dt_to count_max count
      else
        let '(yielded, count', returned) :=
          for_week rest dt_from dt_to count_max (count + 1) in
        ((datetime_, timepoint) :: yielded, count', returned)
  end.

(** The [while True] loop of [get_period], run for at most [steps]
    weeks.  Each week starts with the read of
    [self.get_week_timepoints]. *)
Fixpoint while_true (steps : nat) (self : t) (dt_from dt_to : datetime)
  (count_max : option Z) (home_tz : bool) (week : datetime) (count : Z)
  : list week_item * status :=
  match steps with
  | O => ([], Running)
  | S steps' =>
      match (method <- get_week_timepoints self ;; method week home_tz) with
      | Raise e => ([], Raised e)
      | Ok week_timepoints =>
          let '(yielded, count', returned) :=
            for_week week_timepoints dt_from dt_to count_max count in
          if returned then (yielded, Returned)
          else if count' =? 0 then (yielded, Returned)
          else
            match _dt_add_days week 7 with
            | Raise e => (yielded, Raised e)
            | Ok week' =>
                let '(later, st) :=
                  while_true steps' self dt_from dt_to count_max home_tz
                             week' count' in
                (yielded ++ later, st)
            end
      end
  end.

(** [datetime.min] and [datetime.max], the defaults of [dt_from] and
    [dt_to]: 0001-01-01T00:00:00 and 9999-12-31T23:59:59.999999, both
    naive. *)
Definition datetime_min : datetime :=
  mk_datetime (-719162 * us_per_day) None.
Definition datetime_max : datetime :=
  mk_datetime (2932897 * us_per_day - 1) None.

(** [get_period], observed after at most [steps] weeks of the walk. *)
Definition get_period (self : t) (dt_from dt_to : datetime)
  (count_max : option Z) (home_tz : bool) (steps : nat)
  : list week_item * status :=
  match dt_tzinfo dt_from, dt_tzinfo dt_to with
  | Some _, Some _ =>
      while_true steps self dt_from dt_to count_max home_tz dt_from 0
  | _, _ =>
      ([], Raised (ValueError "dt_from and dt_to must be aware datetimes"))
  end.

End Timetable.

Module HomeData.

Definition name (self : list (string * Node)) : result Node :=
  _get_str self "name".

End HomeData.

Module ModuleData.

Definition name (self : list (string * Node)) : result Node :=
  _get_str self "name".

Definition room_id (self : list (string * Node)) : result Node :=
  _get_int self "room_id".

End ModuleData.

Module Zone.

Definition id (zone : list (string * Node)) : result Node :=
  _get_int zone "id".

End Zone.

Module Zones.

(** [Zones.get_id]: the first zone whose [id] equals [zone_id]; [None]
    when the loop ends without one.  [Zone(zone)] on an item that is not a
    mapping fails on [mapping.items()]. *)
Fixpoint get_id (self : list Node) (zone_id : Z)
  : result (option (list (string * Node))) :=
  match self with
  | [] => Ok None
  | NMap zone :: rest =>
      i <- Zone.id zone ;;
      if int_value i =? zone_id then Ok (Some zone) else get_id rest zone_id
  | item :: _ => no_attribute (type_name item) "items"
  end.

End Zones.

Module Schedule.

(** A [Schedule] is a [MappingObject] that also keeps the home's time
    zone. *)
Record t : Type := mk {
  _mapping : list (string * Node);
  _timezone : tzinfo
}.

Definition zone_item : Type :=
  (datetime * option (list (string * Node)))%type.

(** [self.get_period_timepoints] and [self.get_zone_by_id]: [Schedule]
    and its bases [MappingObject], [Mapping] and [Object] define neither
    name, so each read raises [AttributeError]. *)
Definition get_period_timepoints (self : t)
  : result (datetime -> datetime -> option Z -> bool -> nat ->
            list Timetable.week_item * status) :=
  no_attribute "Schedule" "get_period_timepoints".

Definition get_zone_by_id (self : t)
  : result (Z -> result (option (list (string * Node)))) :=
  no_attribute "Schedule" "get_zone_by_id".

(** The body of the [for] loop of [get_period]: one item out for each
    item of the inner generator, until a zone lookup raises. *)
Fixpoint relay (self : t) (items : list Timetable.week_item) (st : status)
  : list zone_item * status :=
  match items with
  | [] => ([], st)
  | (datetime_, timepoint) :: rest =>
      match (method <- get_zone_by_id self ;;
             z <- Timepoint.zone_id timepoint ;;
             method (int_value z)) with
      | Raise e => ([], Raised e)
      | Ok zone =>
          let '(out, st') := relay self rest st in
          ((datetime_, zone) :: out, st')
      end
  end.

(** [get_period]: the generator's first step reads
    [self.get_period_timepoints]. *)
Definition get_period (self : t) (dt_from dt_to : datetime)
  (count_max : option Z) (home_tz : bool) (steps : nat)
  : list zone_item * status :=
  match get_period_timepoints self with
  | Raise e => ([], Raised e)
  | Ok method =>
      let '(items, st) := method dt_from dt_to count_max home_tz steps in
      relay self items st
  end.

End Schedule.

(** ** Concrete zones and dates for the examples *)

(** Day number of a civil date (proleptic Gregorian). *)
Definition days_from_civil (y m d : Z) : Z :=
  let y := if m <=? 2 then y - 1 else y in
  let era := y / 400 in
  let yoe := y - era * 400 in
  let doy := (153 * (if 2 <? m then m - 3 else m + 9) + 2) / 5 + d - 1 in
  let doe := yoe * 365 + yoe / 4 - yoe / 100 + doy in
  era * 146097 + doe - 719468.

Definition at_ (y m d hour minute : Z) (tz : option tzinfo) : datetime :=
  replace_tzinfo (combine (days_from_civil y m d) (time hour minute)) tz.

Definition CET : tzperiod := mk_period (1 * us_per_hour) 0 "CET".
Definition CEST : tzperiod := mk_period (2 * us_per_hour) us_per_hour "CEST".

(** Europe/Vienna from 2021 to 2023: summer time begins on the last
    Sunday of March and ends on the last Sunday of October, at 01:00
    UTC. *)
Definition Vienna : DstTzInfo :=
  mk_zone CET
    [ (wall (at_ 2021 3 28 1 0 None), CEST);
      (wall (at_ 2021 10 31 1 0 None), CET);
      (wall (at_ 2022 3 27 1 0 None), CEST);
      (wall (at_ 2022 10 30 1 0 None), CET);
      (wall (at_ 2023 3 26 1 0 None), CEST);
      (wall (at_ 2023 10 29 1 0 None), CET) ].

(** A zone described the other way round, as the tz database describes
    Europe/Dublin: the summer is standard time, the winter a daylight
    period of minus one hour. *)
Definition IST : tzperiod := mk_period (1 * us_per_hour) 0 "IST".
Definition GMT : tzperiod := mk_period 0 (- us_per_hour) "GMT".

Definition Dublin : DstTzInfo :=
  mk_zone GMT
    [ (wall (at_ 2022 3 27 1 0 None), IST);
      (wall (at_ 2022 10 30 1 0 None), GMT) ].

Definition utc : tzinfo := FixedOffset 0.

Definition timepoint (zone_id m_offset : Z) (tz : tzinfo) : Timepoint.t :=
  Timepoint.mk [("zone_id", NInt zone_id); ("m_offset", NInt m_offset)] tz.

(** A decoded value built only from null, bool, int, float, string,
    sequence and mapping. *)
Fixpoint representable (item : pyobj) : bool :=
  match item with
  | PyList l => forallb representable l
  | PyDict d => forallb (fun kv => representable (snd kv)) d
  | PyOther _ => false
  | _ => true
  end.

(** A timetable as the API sends it: the night zone from Monday 00:00,
    the day zone from 07:00, the night zone again from 22:00. *)
Definition timepoint_item (zone_id m_offset : Z) : Node :=
  NMap [("zone_id", NInt zone_id); ("m_offset", NInt m_offset)].

Definition monday_timetable : Timetable.t :=
  Timetable.mk
    [timepoint_item 1 0; timepoint_item 0 420; timepoint_item 1 1320]
    (timezone Vienna).

Definition week_of_2022_04_04 : datetime := at_ 2022 4 4 0 0 (Some utc).
Definition week_of_2022_03_21 : datetime := at_ 2022 3 21 12 0 (Some utc).
Definition to_2022_05_04 : datetime := at_ 2022 5 4 0 0 (Some utc).

(** The error of the awareness precondition is a [ValueError]; nothing
    else in the modelled code raises one on the paths taken. *)
Definition is_ValueError (e : exn) : bool :=
  match e with
  | ValueError _ => true
  | _ => false
  end.

Definition aware (dt : datetime) : Prop := dt_tzinfo dt <> None.

(** A datetime that reads [w] on the wall clock and is bound to a period
    of [zone]. *)
Definition zone_periods (zone : DstTzInfo) : list tzperiod :=
  tz_first zone :: map snd (tz_transitions zone).

Definition reads (zone : DstTzInfo) (w : Z) (dt : datetime) : Prop :=
  wall dt = w
  /\ exists p, In p (zone_periods zone)
              /\ dt_tzinfo dt = Some (PytzDst zone p).

(** Python accepts a UTC offset only strictly between minus and plus 24
    hours ([utcoffset()] raises [ValueError] otherwise, and so does the
    constructor of [datetime.timezone]). *)
Definition offset_ok (offset : Z) : Prop :=
  - us_per_day < offset < us_per_day.

Definition tz_ok (tz : tzinfo) : Prop :=
  match tz with
  | FixedOffset offset => offset_ok offset
  | PytzDst zone period =>
      offset_ok (p_utcoffset period)
      /\ Forall (fun p => offset_ok (p_utcoffset p)) (zone_periods zone)
  end.

Definition dt_ok (dt : datetime) : Prop :=
  exists tz, dt_tzinfo dt = Some tz /\ tz_ok tz.

(** The day number of the Monday of the week [get_datetime] resolves
    in: the week of [week] as read in the timepoint's zone. *)
Definition monday_of (self : Timepoint.t) (week : datetime) : Z :=
  let week := astimezone week (Timepoint._timezone self) in
  date week + - weekday week.

(** The naive wall-clock value [get_datetime] builds for an offset of [m]
    minutes in the week of [week]. *)
Definition naive_wall (self : Timepoint.t) (week : datetime) (m : Z) : Z :=
  (monday_of self week + m / 1440) * us_per_day
  + (m mod 1440) * us_per_minute.

(** A zone whose transitions are in ascending order and at least three
    days apart, with offsets Python accepts. *)
Definition apart (a b : Z * tzperiod) : Prop :=
  fst a + 3 * us_per_day <= fst b.

Definition transitions_apart (zone : DstTzInfo) : Prop :=
  StronglySorted apart (tz_transitions zone)
  /\ Forall (fun p => offset_ok (p_utcoffset p)) (zone_periods zone).

(** The period in force up to the transition at [t]. *)
Definition before_transition (zone : DstTzInfo) (t : Z) : tzperiod :=
  period_at zone (t - 1).

(** Around a transition at [t] (in UTC) from the period [before] to the
    period [after]: a wall-clock value that occurs twice (the clocks were
    set back), and one that does not occur (they were set forward). *)
Definition in_fold (before after : tzperiod) (t w : Z) : Prop :=
  t + p_utcoffset after <= w < t + p_utcoffset before.

Definition in_gap (before after : tzperiod) (t w : Z) : Prop :=
  t + p_utcoffset before <= w < t + p_utcoffset after.

(** The period pytz settles on in a fold for [is_dst=False]: the period
    that is standard time ([dst] zero) when exactly one of the two is;
    when both are or neither is, the later reading, which is [after].  So
    [before] wins only when it is standard time and [after] is not. *)
Definition fold_choice (before after : tzperiod) : tzperiod :=
  if (p_dst before =? 0) && negb (p_dst after =? 0) then before else after.

(** Sunday 02:30 in Vienna, which occurs twice in the week of 2022-10-24
    and not at all in the week of 2022-03-21; Sunday 01:30 in Dublin,
    which occurs twice in the week of 2022-10-24. *)
Definition sunday_0230 : Timepoint.t := timepoint 1 8790 (timezone Vienna).
Definition sunday_0130 : Timepoint.t := timepoint 1 8730 (timezone Dublin).
Definition week_of_2022_10_24 : datetime := at_ 2022 10 24 12 0 (Some utc).

(** An item whose instant lies between the two bounds. *)
Definition within (dt_from dt_to : datetime) (item : Timetable.week_item)
  : Prop :=
  instant dt_from <= instant (fst item) <= instant dt_to.

(** Induction on a decoded value through its nested lists. *)
Section pyobj_induction.
Variable P : pyobj -> Prop.
Hypothesis HNone : P PyNone.
Hypothesis HBool : forall b, P (PyBool b).
Hypothesis HInt : forall z, P (PyInt z).
Hypothesis HFloat : forall f, P (PyFloat f).
Hypothesis HStr : forall s, P (PyStr s).
Hypothesis HList : forall l, Forall P l -> P (PyList l).
Hypothesis HDict :
  forall d, Forall (fun kv => P (snd kv)) d -> P (PyDict d).
Hypothesis HOther : forall n, P (PyOther n).

Fixpoint pyobj_nested_ind (item : pyobj) : P item :=
  match item with
  | PyNone => HNone
  | PyBool b => HBool b
  | PyInt z => HInt z
  | PyFloat f => HFloat f
  | PyStr s => HStr s
  | PyList l =>
      HList l
        ((fix go (l : list pyobj) : Forall P l :=
            match l with
            | [] => Forall_nil P
            | x :: r => Forall_cons x (pyobj_nested_ind x) (go r)
            end) l)
  | PyDict d =>
      HDict d
        ((fix go (d : list (string * pyobj))
            : Forall (fun kv => P (snd kv)) d :=
            match d with
            | [] => Forall_nil _
            | kv :: r =>
                Forall_cons kv (pyobj_nested_ind (snd kv)) (go r)
            end) d)
  | PyOther n => HOther n
  end.
End pyobj_induction.

(** * The rest of the object layer *)

(** ** Wrapped objects as constructor arguments *)

(** A stored value none of whose mappings holds a key twice. *)
Inductive well_formed : Node -> Prop :=
| wf_none : well_formed NNone
| wf_bool (b : bool) : well_formed (NBool b)
| wf_int (z : Z) : well_formed (NInt z)
| wf_float (f : Z) : well_formed (NFloat f)
| wf_str (s : string) : well_formed (NStr s)
| wf_seq (l : list Node) : Forall well_formed l -> well_formed (NSeq l)
| wf_map (m : list (string * Node)) :
    NoDup (map fst m) ->
    Forall (fun kv => well_formed (snd kv)) m ->
    well_formed (NMap m).

(** ** Identities *)

(** [_PyLong_DigitValue] below 16: the value of a hexadecimal digit. *)
Definition hex_digit_value (c : Ascii.ascii) : option N :=
  let n := Ascii.N_of_ascii c in
  if ((48 <=? n) && (n <=? 57))%N then Some (n - 48)%N
  else if ((97 <=? n) && (n <=? 102))%N then Some (n - 87)%N
  else if ((65 <=? n) && (n <=? 70))%N then Some (n - 55)%N
  else None.

(** [Py_ISSPACE]: space, tab, line feed, vertical tab, form feed,
    carriage return. *)
Definition Py_ISSPACE (c : Ascii.ascii) : bool :=
  let n := Ascii.N_of_ascii c in
  ((9 <=? n) && (n <=? 13) || (n =? 32))%N.

(** [bytes.fromhex(s)] (Python 3.7 and later): ASCII whitespace is skipped
    before each byte, a byte is two hexadecimal digits next to each other;
    [None] stands for [ValueError]. *)
Fixpoint fromhex (s : string) : option (list Byte.byte) :=
  match s with
  | EmptyString => Some []
  | String c rest =>
      if Py_ISSPACE c then fromhex rest
      else
        match hex_digit_value c, rest with
        | Some top, String c' rest' =>
            match hex_digit_value c' with
            | Some bot =>
                match Byte.of_N (top * 16 + bot), fromhex rest' with
                | Some b, Some bs => Some (b :: bs)
                | _, _ => None
                end
            | None => None
            end
        | _, _ => None
        end
  end.

(** [bytes.hex()]: two lowercase digits per byte. *)
Definition hex_digit (n : N) : Ascii.ascii :=
  Ascii.ascii_of_N (if (n <? 10)%N then 48 + n else 87 + n)%N.

Fixpoint hex (bs : list Byte.byte) : string :=
  match bs with
  | [] => EmptyString
  | b :: rest =>
      String (hex_digit (Byte.to_N b / 16))
        (String (hex_digit (Byte.to_N b mod 16)) (hex rest))
  end.

(** The same with capital digits, which [fromhex] accepts as well. *)
Definition hex_digit_upper (n : N) : Ascii.ascii :=
  Ascii.ascii_of_N (if (n <? 10)%N then 48 + n else 55 + n)%N.

Fixpoint hex_upper (bs : list Byte.byte) : string :=
  match bs with
  | [] => EmptyString
  | b :: rest =>
      String (hex_digit_upper (Byte.to_N b / 16))
        (String (hex_digit_upper (Byte.to_N b mod 16)) (hex_upper rest))
  end.

Definition colon : Ascii.ascii := Eval compute in Ascii.ascii_of_nat 58.

(** The MAC-style writing of a module identity: the bytes in hexadecimal,
    separated by colons. *)
Fixpoint mac (bs : list Byte.byte) : string :=
  match bs with
  | [] => EmptyString
  | [b] => hex [b]
  | b :: rest => String.append (hex [b]) (String colon (mac rest))
  end.

(** [s.replace(":", "")]. *)
Fixpoint remove_colons (s : string) : string :=
  match s with
  | EmptyString => EmptyString
  | String c rest =>
      if Ascii.eqb c colon then remove_colons rest
      else String c (remove_colons rest)
  end.

(** The [try: ... bytes.fromhex(...) except ValueError: raise
    ObjectIdError] of the [id] properties, on the value [_get_str]
    returned. *)
Definition id_fromhex (prepare : string -> string) (value : Node)
  : result (list Byte.byte) :=
  match value with
  | NStr s =>
      match fromhex (prepare s) with
      | Some bs => Ok bs
      | None => Raise ObjectIdError
      end
  | _ => Raise (TypeError "fromhex() argument must be str")
  end.

Module HomeObject.

Definition id (self : list (string * Node)) : result (list Byte.byte) :=
  value <- _get_str self "id" ;;
  id_fromhex (fun s => s) value.

End HomeObject.

Module ModuleObject.

Definition id (self : list (string * Node)) : result (list Byte.byte) :=
  value <- _get_str self "id" ;;
  id_fromhex remove_colons value.

End ModuleObject.

Module RoomObject.

(** The [except ValueError] clause turns a [ValueError] of [_get_int]
    into [ObjectIdError]. *)
Definition id (self : list (string * Node)) : result Node :=
  match _get_int self "id" with
  | Raise (ValueError _) => Raise ObjectIdError
  | r => r
  end.

End RoomObject.

(** ** Lookup by identity *)

(** The loop shared by the [get_id] methods: wrap each item in the
    collection's class, read its [id], return the first object whose
    [id] equals the one asked for; the method returns [None] when the
    loop ends. *)
Section get_id.
Variables Obj Id Wanted : Type.
Variable wrap : Node -> result Obj.
Variable id_of : Obj -> result Id.
Variable id_eqb : Id -> Wanted -> bool.

Fixpoint get_id_loop (items : list Node) (wanted : Wanted)
  : result (option Obj) :=
  match items with
  | [] => Ok None
  | item :: rest =>
      obj <- wrap item ;;
      i <- id_of obj ;;
      if id_eqb i wanted then Ok (Some obj) else get_id_loop rest wanted
  end.
End get_id.

Definition bytes_eqb (a b : list Byte.byte) : bool :=
  if list_eq_dec Byte.byte_eq_dec a b then true else false.

Module HomesData.

Definition get_id (self : list Node) (home_id : list Byte.byte)
  : result (option (list (string * Node))) :=
  get_id_loop _ _ _ wrap_mapping HomeObject.id bytes_eqb self home_id.

End HomesData.

Module ModulesData.

Definition get_id (self : list Node) (module_id : list Byte.byte)
  : result (option (list (string * Node))) :=
  get_id_loop _ _ _ wrap_mapping ModuleObject.id bytes_eqb self module_id.

End ModulesData.

Module RoomsData.

(** [room_data.id == room_id] compares integers ([True] equals [1]). *)
Definition get_id (self : list Node) (room_id : Z)
  : result (option (list (string * Node))) :=
  get_id_loop _ _ _ wrap_mapping RoomObject.id
    (fun i wanted => int_value i =? wanted) self room_id.

End RoomsData.

(** Induction on a stored value through its nested lists. *)
Section Node_induction.
Variable P : Node -> Prop.
Hypothesis HNone : P NNone.
Hypothesis HBool : forall b, P (NBool b).
Hypothesis HInt : forall z, P (NInt z).
Hypothesis HFloat : forall f, P (NFloat f).
Hypothesis HStr : forall s, P (NStr s).
Hypothesis HSeq : forall l, Forall P l -> P (NSeq l).
Hypothesis HMap : forall m, Forall (fun kv => P (snd kv)) m -> P (NMap m).

Fixpoint Node_nested_ind (value : Node) : P value :=
  match value with
  | NNone => HNone
  | NBool b => HBool b
  | NInt z => HInt z
  | NFloat f => HFloat f
  | NStr s => HStr s
  | NSeq l =>
      HSeq l
        ((fix go (l : list Node) : Forall P l :=
            match l with
            | [] => Forall_nil P
            | x :: r => Forall_cons x (Node_nested_ind x) (go r)
            end) l)
  | NMap m =>
      HMap m
        ((fix go (m : list (string * Node))
            : Forall (fun kv => P (snd kv)) m :=
            match m with
            | [] => Forall_nil _
            | kv :: r => Forall_cons kv (Node_nested_ind (snd kv)) (go r)
            end) m)
  end.
End Node_induction.

(** An item the loop of a [get_id] passes over: it wraps, its [id] is
    read, and the [id] is not the one asked for. *)
Definition passed {Obj Id Wanted : Type} (wrap : Node -> result Obj)
  (id_of : Obj -> result Id) (id_eqb : Id -> Wanted -> bool)
  (wanted : Wanted) (item : Node) : Prop :=
  exists obj i, wrap item = Ok obj /\ id_of obj = Ok i
                /\ id_eqb i wanted = false.

(** An item the loop stops at with an error. *)
Definition fails {Obj Id : Type} (wrap : Node -> result Obj)
  (id_of : Obj -> result Id) (item : Node) (e : exn) : Prop :=
  wrap item = Raise e
  \/ exists obj, wrap item = Ok obj /\ id_of obj = Raise e.

(** [Zone(zone)] as [Zones.get_id] has it. *)
Definition wrap_zone (item : Node) : result (list (string * Node)) :=
  match item with
  | NMap zone => Ok zone
  | _ => no_attribute (type_name item) "items"
  end.

(** * The rest of the timetable *)


(** * [grant.py] *)

Definition CLIENT_ID : string := "na_client_android_magellan".
Definition CLIENT_SECRET : string := "a6e15c52b06364b3251b2c5ae3dd8521".
Definition SCOPE : string := "all_scopes".

Definition is_None (value : pyobj) : bool :=
  match value with
  | PyNone => true
  | _ => false
  end.

Module BaseGrant.

(** The condition of the dict comprehension of [__init__]:
    [key != "self" and not key.startswith("__") and value is not None]. *)
Definition kept (key : string) (value : pyobj) : bool :=
  negb (String.eqb key "self") && negb (String.prefix "__" key)
  && negb (is_None value).

(** [BaseGrant.__init__]: the [_params] it builds from [parameters]. *)
Definition init (parameters : list (string * pyobj))
  : list (string * pyobj) :=
  filter (fun item => kept (fst item) (snd item)) parameters.

Definition _set_grant_type (_params : list (string * pyobj))
  (grant_type : string) : list (string * pyobj) :=
  setitem _params "grant_type" (PyStr grant_type).

End BaseGrant.

(** An argument with a default: [None] here is an argument left out (a
    Python [None] passed on purpose is [Some PyNone]). *)
Definition default (value : string) (argument : option pyobj) : pyobj :=
  match argument with
  | Some given => given
  | None => PyStr value
  end.

(** The three grants.  [locals()] in an [__init__] that calls [super()]
    holds [self], the arguments in the order of the signature, and the
    cell [__class__] that [super()] reads. *)
Module RefreshTokenGrant.

Definition locals (refresh_token : pyobj)
  (client_id client_secret : option pyobj) : list (string * pyobj) :=
  [("self", PyOther "RefreshTokenGrant");
   ("refresh_token", refresh_token);
   ("client_id", default CLIENT_ID client_id);
   ("client_secret", default CLIENT_SECRET client_secret);
   ("__class__", PyOther "type")].

Definition init (refresh_token : pyobj)
  (client_id client_secret : option pyobj) : list (string * pyobj) :=
  BaseGrant._set_grant_type
    (BaseGrant.init (locals refresh_token client_id client_secret))
    "refresh_token".

End RefreshTokenGrant.

Module AuthorizationCodeGrant.

Definition locals (code : pyobj) (client_id client_secret : option pyobj)
  (redirect_uri : option pyobj) (scope : option pyobj)
  : list (string * pyobj) :=
  [("self", PyOther "AuthorizationCodeGrant");
   ("code", code);
   ("client_id", default CLIENT_ID client_id);
   ("client_secret", default CLIENT_SECRET client_secret);
   ("redirect_uri", match redirect_uri with
                    | Some given => given
                    | None => PyNone
                    end);
   ("scope", default SCOPE scope);
   ("__class__", PyOther "type")].

Definition init (code : pyobj) (client_id client_secret : option pyobj)
  (redirect_uri : option pyobj) (scope : option pyobj)
  : list (string * pyobj) :=
  BaseGrant._set_grant_type
    (BaseGrant.init (locals code client_id client_secret redirect_uri scope))
    "authorization_code".

End AuthorizationCodeGrant.

Module ClientCredentialsGrant.

Definition locals (username password : pyobj)
  (client_id client_secret : option pyobj) (scope : option pyobj)
  : list (string * pyobj) :=
  [("self", PyOther "ClientCredentialsGrant");
   ("username", username);
   ("password", password);
   ("client_id", default CLIENT_ID client_id);
   ("client_secret", default CLIENT_SECRET client_secret);
   ("scope", default SCOPE scope);
   ("__class__", PyOther "type")].

Definition init (username password : pyobj)
  (client_id client_secret : option pyobj) (scope : option pyobj)
  : list (string * pyobj) :=
  BaseGrant._set_grant_type
    (BaseGrant.init (locals username password client_id client_secret scope))
    "password".

End ClientCredentialsGrant.

(** [BaseGrant.get_refresh_token_grant] on the grant's [_params]; [None]
    stands for the [KeyError] of [self._params["client_id"]] or
    [self._params["client_secret"]]. *)
Definition get_refresh_token_grant (_params : list (string * pyobj))
  (refresh_token : pyobj) : option (list (string * pyobj)) :=
  match getitem _params "client_id" with
  | None => None
  | Some client_id =>
      match getitem _params "client_secret" with
      | None => None
      | Some client_secret =>
          Some (RefreshTokenGrant.init refresh_token (Some client_id)
                  (Some client_secret))
      end
  end.

(** The keys of a dict, in order. *)
Definition keys {V : Type} (d : list (string * V)) : list string :=
  map fst d.

(** * Properties *)

(** ** The object layer *)

Lemma SequenceObject_init_raise (assign : pyobj -> result Node)
  (Q : exn -> Prop) (sequence : list pyobj) :
  Forall (fun item => forall e, assign item = Raise e -> Q e) sequence ->
  forall acc e, SequenceObject_init assign sequence acc = Raise e -> Q e.
Proof.
  induction 1 as [|x r Hx _ IH]; intros acc e; simpl.
  - discriminate.
  - destruct (assign x) eqn:Ex; simpl.
    + apply IH.
    + intros He. inversion He; subst. apply Hx. reflexivity.
Qed.

Lemma MappingObject_init_raise (assign : pyobj -> result Node)
  (Q : exn -> Prop) (items : list (string * pyobj)) :
  Forall (fun kv => forall e, assign (snd kv) = Raise e -> Q e) items ->
  forall acc e, MappingObject_init assign items acc = Raise e -> Q e.
Proof.
  induction 1 as [|[k x] r Hx _ IH]; intros acc e; simpl.
  - discriminate.
  - simpl in Hx. destruct (assign x) eqn:Ex; simpl.
    + apply IH.
    + intros He. inversion He; subst. apply Hx. reflexivity.
Qed.

(** Whatever [_assign] raises is the [TypeError] of the failed
    construction of [ObjectDataError]; no [ObjectDataError] comes out. *)
Lemma _assign_raise (item : pyobj) (e : exn) :
  _assign item = Raise e -> e = TypeError data_error_message.
Proof.
  revert e. induction item using pyobj_nested_ind; intros e; simpl;
    try discriminate.
  - destruct (SequenceObject_init _assign l []) eqn:E; simpl;
      [discriminate|].
    intros He; inversion He; subst.
    eapply (SequenceObject_init_raise _assign
              (fun e => e = TypeError data_error_message)); eauto.
  - destruct (MappingObject_init _assign d []) eqn:E; simpl;
      [discriminate|].
    intros He; inversion He; subst.
    eapply (MappingObject_init_raise _assign
              (fun e => e = TypeError data_error_message)); eauto.
  - unfold raise_ObjectDataError. intros He; inversion He. reflexivity.
Qed.

Lemma SequenceObject_init_ok (assign : pyobj -> result Node)
  (sequence : list pyobj) :
  Forall (fun item => exists v, assign item = Ok v) sequence ->
  forall acc, exists l, SequenceObject_init assign sequence acc = Ok l.
Proof.
  induction 1 as [|x r [v Hv] _ IH]; intros acc; simpl.
  - eauto.
  - rewrite Hv. simpl. apply IH.
Qed.

Lemma MappingObject_init_ok (assign : pyobj -> result Node)
  (items : list (string * pyobj)) :
  Forall (fun kv => exists v, assign (snd kv) = Ok v) items ->
  forall acc, exists m, MappingObject_init assign items acc = Ok m.
Proof.
  induction 1 as [|[k x] r [v Hv] _ IH]; intros acc; simpl.
  - eauto.
  - simpl in Hv. rewrite Hv. simpl. apply IH.
Qed.

(** Construction succeeds on every representable value. *)
Lemma _assign_representable (item : pyobj) :
  representable item = true -> exists v, _assign item = Ok v.
Proof.
  induction item using pyobj_nested_ind; simpl; intros Hr; eauto.
  - destruct (SequenceObject_init_ok _assign l) with (acc := @nil Node)
      as [s Hs].
    + rewrite forallb_forall in Hr. rewrite Forall_forall in *.
      intros x Hx. apply H; auto.
    + rewrite Hs. simpl. eauto.
  - destruct (MappingObject_init_ok _assign d)
      with (acc := @nil (string * Node)) as [s Hs].
    + rewrite forallb_forall in Hr. rewrite Forall_forall in *.
      intros x Hx. apply H; auto.
    + rewrite Hs. simpl. eauto.
  - discriminate.
Qed.

(** A boolean is kept as a boolean: the [bool] test comes before the
    [int] test. *)
Lemma _assign_bool (b : bool) : _assign (PyBool b) = Ok (NBool b).
Proof. reflexivity. Qed.

(** The typed getter by cases on the stored value. *)
Lemma _get_type_absent (self : list (string * Node)) (key : string)
  (type_ : pytype) :
  getitem self key = None ->
  _get_type self key type_ = Raise (ObjectAttributeError key).
Proof. unfold _get_type. intros ->. reflexivity. Qed.

Lemma _get_type_wrong_type (self : list (string * Node)) (key : string)
  (type_ : pytype) (value : Node) :
  getitem self key = Some value ->
  isinstance value type_ = false ->
  _get_type self key type_ = Raise (ObjectTypeError key value).
Proof. unfold _get_type. intros -> ->. reflexivity. Qed.

Lemma _get_type_present (self : list (string * Node)) (key : string)
  (type_ : pytype) (value : Node) :
  getitem self key = Some value ->
  isinstance value type_ = true ->
  _get_type self key type_ = Ok value.
Proof. unfold _get_type. intros -> ->. reflexivity. Qed.

(** C8.  The typed getters have no nullable mode: [HomeData.name] and
    [ModuleData.room_id] on a mapping without the key raise
    [ObjectAttributeError], where the claim (and the repository's tests)
    expect an absent value to be returned; a [null] stored under the key
    raises [ObjectTypeError]. *)
Theorem nullable_getters_raise_on_absent_key :
  HomeData.name [("id", NStr "60478d1baf36ee032f3e0070")]
    = Raise (ObjectAttributeError "name")
  /\ ModuleData.room_id [("id", NStr "00:03:50:b7:71:be")]
    = Raise (ObjectAttributeError "room_id")
  /\ HomeData.name [("name", NNone)] = Raise (ObjectTypeError "name" NNone).
Proof. repeat split; reflexivity. Qed.

(** C9.  A value that is none of the seven shapes makes the constructors
    fail, but with the [TypeError] of the ill-formed call
    [ObjectDataError(self, item)], at any depth; an [ObjectDataError] is
    never what is raised. *)
Theorem unrepresentable_value_raises_TypeError :
  SequenceObject [PyInt 1; PyOther "set"] = Raise (TypeError data_error_message)
  /\ MappingObject [("rooms", PyList [PyDict [("id", PyOther "set")]])]
     = Raise (TypeError data_error_message)
  /\ forall item, _assign item <> Raise ObjectDataError.
Proof.
  repeat split; try reflexivity.
  intros item H. apply _assign_raise in H. discriminate.
Qed.

(** ** Results and lists *)

Lemma bind_ok {A B : Type} (r : result A) (k : A -> result B) (b : B) :
  bind r k = Ok b -> exists a, r = Ok a /\ k a = Ok b.
Proof. destruct r; simpl; [eauto | discriminate]. Qed.

Lemma bind_raise {A B : Type} (r : result A) (k : A -> result B) (e : exn) :
  bind r k = Raise e ->
  r = Raise e \/ exists a, r = Ok a /\ k a = Raise e.
Proof.
  destruct r; simpl; intros H; [right; eauto | left; congruence].
Qed.

(** ** Localisation *)

Lemma fromutc_tzinfo (zone : DstTzInfo) (u : Z) :
  dt_tzinfo (fromutc zone u) = Some (PytzDst zone (period_at zone u)).
Proof. reflexivity. Qed.

Lemma period_from_in (current : tzperiod) (transitions : list (Z * tzperiod))
  (t : Z) :
  In (period_from current transitions t) (current :: map snd transitions).
Proof.
  revert current. induction transitions as [|[u p] rest IH]; intros current;
    simpl.
  - auto.
  - destruct (u <=? t); [|auto]. right. apply IH.
Qed.

Lemma period_at_in (zone : DstTzInfo) (t : Z) :
  In (period_at zone t) (zone_periods zone).
Proof. apply period_from_in. Qed.

Lemma possible_loc_dt_reads (zone : DstTzInfo) (w : Z) :
  Forall (reads zone w) (possible_loc_dt zone w).
Proof.
  unfold possible_loc_dt.
  set (c1 := normalize zone w (period_at zone (w + - us_per_day))).
  set (c2 := normalize zone w (period_at zone (w + us_per_day))).
  assert (H1 : (wall c1 =? w) = true -> reads zone w c1).
  { intros E. apply Z.eqb_eq in E. split; [assumption|].
    eexists. split; [apply period_at_in | apply fromutc_tzinfo]. }
  assert (H2 : (wall c2 =? w) = true -> reads zone w c2).
  { intros E. apply Z.eqb_eq in E. split; [assumption|].
    eexists. split; [apply period_at_in | apply fromutc_tzinfo]. }
  cbn [filter]. destruct (wall c1 =? w); destruct (wall c2 =? w);
    try destruct (instant c1 =? instant c2);
    repeat (apply Forall_cons || apply Forall_nil); auto.
Qed.

Lemma by_utc_cases (is_dst : bool) (a b : datetime) :
  by_utc is_dst a b = a \/ by_utc is_dst a b = b.
Proof.
  unfold by_utc. destruct is_dst;
    [destruct (instant b <? instant a) | destruct (instant a <? instant b)];
    auto.
Qed.

Lemma fold_by_utc_in (is_dst : bool) (l : list datetime) (a : datetime) :
  In (fold_left (by_utc is_dst) l a) (a :: l).
Proof.
  revert a. induction l as [|b l IH]; intros a; simpl.
  - auto.
  - destruct (IH (by_utc is_dst a b)) as [H | H].
    + rewrite <- H.
      destruct (by_utc_cases is_dst a b) as [E | E]; rewrite E; simpl; auto.
    + simpl; auto.
Qed.

Lemma choose_ambiguous_in (possible : list datetime) (is_dst : bool)
  (first : datetime) :
  In first possible -> In (choose_ambiguous possible is_dst first) possible.
Proof.
  intros Hf. unfold choose_ambiguous.
  set (keep := fun p => Bool.eqb (negb (p_dst (bound_period p) =? 0)) is_dst).
  destruct (filter keep possible) as [|p [|q filtered]] eqn:E.
  - destruct (fold_by_utc_in is_dst possible first) as [H | H];
      [rewrite <- H|]; assumption.
  - assert (In p (filter keep possible)) by (rewrite E; simpl; auto).
    apply filter_In in H. tauto.
  - assert (Hin : In (fold_left (by_utc is_dst) (q :: filtered) p)
                     (filter keep possible)).
    { rewrite E. apply fold_by_utc_in. }
    apply filter_In in Hin. tauto.
Qed.

(** [localize] reads back the wall-clock value it was given, in an
    instance of the zone. *)
Lemma localize_rec_ok (depth : nat) (zone : DstTzInfo) (w : Z) (is_dst : bool)
  (dt : datetime) :
  localize_rec depth zone w is_dst = Ok dt -> reads zone w dt.
Proof.
  revert w dt. induction depth as [|depth IH]; intros w dt; simpl;
    pose proof (possible_loc_dt_reads zone w) as Hp;
    destruct (possible_loc_dt zone w) as [|c1 [|c2 rest]] eqn:E.
  - discriminate.
  - intros H; inversion H; subst. inversion Hp; assumption.
  - intros H; inversion H; subst. rewrite Forall_forall in Hp. apply Hp.
    apply choose_ambiguous_in. simpl; auto.
  - destruct is_dst; intros H; apply bind_ok in H;
      destruct H as [loc [Hloc H]]; inversion H; subst;
      apply IH in Hloc; destruct Hloc as [Hw [p [Hin Hq]]];
      (split; simpl; [lia | exists p; split; assumption]).
  - intros H; inversion H; subst. inversion Hp; assumption.
  - intros H; inversion H; subst. rewrite Forall_forall in Hp. apply Hp.
    apply choose_ambiguous_in. simpl; auto.
Qed.

Lemma localize_rec_raise (depth : nat) (zone : DstTzInfo) (w : Z)
  (is_dst : bool) (e : exn) :
  localize_rec depth zone w is_dst = Raise e -> e = RecursionError.
Proof.
  revert w. induction depth as [|depth IH]; intros w; simpl;
    destruct (possible_loc_dt zone w) as [|c1 [|c2 rest]];
    try discriminate.
  - intros H; inversion H; reflexivity.
  - destruct is_dst; intros H; apply bind_raise in H;
      destruct H as [H | [loc [_ H]]]; try discriminate; eauto.
Qed.

(** [_dt_localize] on a naive datetime. *)
Lemma _dt_localize_ok (dt : datetime) (tz : tzinfo) (r : datetime) :
  dt_tzinfo dt = None ->
  _dt_localize dt (Some tz) = Ok r ->
  wall r = wall dt /\ aware r.
Proof.
  intros Hn. unfold _dt_localize, localize, aware. destruct tz as [o|zone p].
  - intros H; inversion H; subst; simpl. split; [reflexivity | discriminate].
  - rewrite Hn. intros H. apply localize_rec_ok in H.
    destruct H as [Hw [q [_ Hq]]].
    split; [assumption | rewrite Hq; discriminate].
Qed.

Lemma _dt_localize_raise (dt : datetime) (tz : option tzinfo) (e : exn) :
  dt_tzinfo dt = None ->
  _dt_localize dt tz = Raise e -> e = RecursionError.
Proof.
  intros Hn. unfold _dt_localize, localize. destruct tz as [[o|zone p]|];
    try discriminate.
  rewrite Hn. apply localize_rec_raise.
Qed.

(** ** Which errors the resolution can raise *)

Lemma astimezone_aware (dt : datetime) (tz : tzinfo) :
  aware dt -> aware (astimezone dt tz).
Proof.
  unfold aware, astimezone. destruct (dt_tzinfo dt) as [mytz|] eqn:E.
  - intros _. destruct (tzinfo_is tz mytz).
    + rewrite E. discriminate.
    + destruct tz; simpl; discriminate.
  - intros H. contradiction H. reflexivity.
Qed.

Lemma astimezone_instant (dt : datetime) (tz : tzinfo) :
  aware dt -> instant (astimezone dt tz) = instant dt.
Proof.
  unfold aware, astimezone, instant.
  destruct (dt_tzinfo dt) as [mytz|] eqn:E.
  - intros _. destruct (tzinfo_is tz mytz).
    + rewrite E. reflexivity.
    + destruct tz; simpl; lia.
  - intros H. contradiction H. reflexivity.
Qed.

Lemma _get_type_raise (self : list (string * Node)) (key : string)
  (type_ : pytype) (e : exn) :
  _get_type self key type_ = Raise e -> is_ValueError e = false.
Proof.
  unfold _get_type. destruct (getitem self key) as [v|].
  - destruct (negb (isinstance v type_)); intros H; inversion H; reflexivity.
  - intros H; inversion H; reflexivity.
Qed.

Lemma _dt_localize_not_ValueError (dt : datetime) (tz : option tzinfo)
  (e : exn) :
  dt_tzinfo dt = None ->
  _dt_localize dt tz = Raise e -> is_ValueError e = false.
Proof.
  intros Hn H. apply _dt_localize_raise in H; [|assumption].
  subst. reflexivity.
Qed.

Lemma get_datetime_naive (self : Timepoint.t) (week : datetime)
  (home_timezone : bool) :
  dt_tzinfo week = None ->
  Timepoint.get_datetime self week home_timezone
  = Raise (ValueError "Week must be aware datetime").
Proof. unfold Timepoint.get_datetime. intros ->. reflexivity. Qed.

Lemma get_datetime_aware_raise (self : Timepoint.t) (week : datetime)
  (home_timezone : bool) (e : exn) :
  aware week ->
  Timepoint.get_datetime self week home_timezone = Raise e ->
  is_ValueError e = false.
Proof.
  unfold aware, Timepoint.get_datetime.
  destruct (dt_tzinfo week) as [week_timezone|]; [intros _ | congruence].
  intros H. apply bind_raise in H. destruct H as [H | [week_start [_ H]]].
  { eapply _dt_localize_not_ValueError; [|exact H]. reflexivity. }
  apply bind_raise in H. destruct H as [H | [td [_ H]]].
  { unfold Timepoint.get_timedelta in H. apply bind_raise in H.
    destruct H as [H | [m [_ H]]]; [|discriminate].
    eapply _get_type_raise. exact H. }
  apply bind_raise in H. destruct H as [H | [dt [_ H]]]; [|discriminate].
  eapply _dt_localize_not_ValueError; [|exact H]. reflexivity.
Qed.

(** ** The week and the period of a timetable *)

Lemma get_week_naive (self : Timetable.t) (week : datetime) (home_tz : bool) :
  dt_tzinfo week = None ->
  Timetable.get_week self week home_tz
  = Raise (ValueError "week must be aware datetime").
Proof. unfold Timetable.get_week. intros ->. reflexivity. Qed.

(** With an aware week [get_week] gets as far as its first read of
    [self.timetable]. *)
Lemma get_week_aware (self : Timetable.t) (week : datetime) (home_tz : bool) :
  aware week ->
  Timetable.get_week self week home_tz
  = Raise (AttributeError "'Timetable' object has no attribute 'timetable'").
Proof.
  unfold aware, Timetable.get_week. intros Ha.
  destruct (dt_tzinfo week); [reflexivity | contradiction Ha; reflexivity].
Qed.


Lemma get_period_naive (self : Timetable.t) (dt_from dt_to : datetime)
  (count_max : option Z) (home_tz : bool) (steps : nat) :
  dt_tzinfo dt_from = None \/ dt_tzinfo dt_to = None ->
  Timetable.get_period self dt_from dt_to count_max home_tz steps
  = ([], Raised (ValueError "dt_from and dt_to must be aware datetimes")).
Proof.
  unfold Timetable.get_period. intros [H | H]; rewrite H;
    [|destruct (dt_tzinfo dt_from)]; reflexivity.
Qed.

Lemma get_period_aware (self : Timetable.t) (dt_from dt_to : datetime)
  (count_max : option Z) (home_tz : bool) (steps : nat) :
  aware dt_from -> aware dt_to ->
  Timetable.get_period self dt_from dt_to count_max home_tz steps
  = match steps with
    | O => ([], Running)
    | S _ =>
        ([], Raised (AttributeError
                       "'Timetable' object has no attribute 'get_week_timepoints'"))
    end.
Proof.
  unfold aware, Timetable.get_period. intros Hf Ht.
  destruct (dt_tzinfo dt_from); [|contradiction Hf; reflexivity].
  destruct (dt_tzinfo dt_to); [|contradiction Ht; reflexivity].
  destruct steps; reflexivity.
Qed.

Lemma get_period_yields_nothing (self : Timetable.t)
  (dt_from dt_to : datetime) (count_max : option Z) (home_tz : bool)
  (steps : nat) :
  fst (Timetable.get_period self dt_from dt_to count_max home_tz steps) = [].
Proof.
  unfold Timetable.get_period.
  destruct (dt_tzinfo dt_from); [|reflexivity].
  destruct (dt_tzinfo dt_to); [|reflexivity].
  destruct steps; reflexivity.
Qed.

(** C6.  Each of the three operations raises a [ValueError] exactly when a
    reference instant it was given is naive; with aware references no
    [ValueError] comes out, whatever else may be raised. *)
Theorem ValueError_iff_naive_reference :
  (forall (self : Timepoint.t) (week : datetime) (home_timezone : bool),
      (exists msg, Timepoint.get_datetime self week home_timezone
                   = Raise (ValueError msg))
      <-> dt_tzinfo week = None)
  /\ (forall (self : Timetable.t) (week : datetime) (home_tz : bool),
      (exists msg, Timetable.get_week self week home_tz
                   = Raise (ValueError msg))
      <-> dt_tzinfo week = None)
  /\ (forall (self : Timetable.t) (dt_from dt_to : datetime)
        (count_max : option Z) (home_tz : bool) (steps : nat),
      (exists msg, snd (Timetable.get_period self dt_from dt_to count_max
                          home_tz steps) = Raised (ValueError msg))
      <-> (dt_tzinfo dt_from = None \/ dt_tzinfo dt_to = None)).
Proof.
  split; [|split].
  - intros self week home_timezone. split.
    + intros [msg H]. destruct (dt_tzinfo week) eqn:E; [|reflexivity].
      apply get_datetime_aware_raise in H; [discriminate|].
      unfold aware. congruence.
    + intros H. eexists. apply get_datetime_naive. assumption.
  - intros self week home_tz. split.
    + intros [msg H]. destruct (dt_tzinfo week) eqn:E; [|reflexivity].
      rewrite get_week_aware in H by (unfold aware; congruence).
      discriminate.
    + intros H. eexists. apply get_week_naive. assumption.
  - intros self dt_from dt_to count_max home_tz steps. split.
    + intros [msg H].
      destruct (dt_tzinfo dt_from) eqn:Ef; [|auto].
      destruct (dt_tzinfo dt_to) eqn:Et; [|auto].
      rewrite get_period_aware in H by (unfold aware; congruence).
      destruct steps; discriminate.
    + intros H. rewrite get_period_naive by exact H. eexists. reflexivity.
Qed.

(** C2.  On an empty timetable [get_week] with an aware week raises and
    returns nothing.  The error is the [AttributeError] of the read of
    [self.timetable], which comes before the emptiness test (whose
    [ValueError] is built without [raise]) and before
    [week_timepoints[0]]. *)
Theorem get_week_empty_timetable_raises (tz : tzinfo) (week : datetime)
  (home_tz : bool) :
  aware week ->
  raises (Timetable.get_week (Timetable.mk [] tz) week home_tz)
  /\ Timetable.get_week (Timetable.mk [] tz) week home_tz
     = Raise (AttributeError
                "'Timetable' object has no attribute 'timetable'").
Proof.
  intros Ha. pose proof (get_week_aware (Timetable.mk [] tz) week home_tz Ha)
    as E.
  split; [eexists; exact E | exact E].
Qed.

Lemma get_week_empty_timetable_raises_witness :
  aware week_of_2022_04_04
  /\ raises (Timetable.get_week (Timetable.mk [] (timezone Vienna))
               week_of_2022_04_04 false).
Proof.
  assert (Ha : aware week_of_2022_04_04)
    by (unfold aware; simpl; discriminate).
  split; [exact Ha|].
  exact (proj1 (get_week_empty_timetable_raises (timezone Vienna)
                  week_of_2022_04_04 false Ha)).
Defined.

(** C1.  [get_week] returns no week: it raises for every timetable and
    every week, and on a timetable of three timepoints whose first and
    last share a zone, with an aware week, the error is the
    [AttributeError] of the read of [self.timetable]; the rule on the
    first timepoint is never reached. *)
Theorem get_week_returns_no_week :
  (forall (self : Timetable.t) (week : datetime) (home_tz : bool),
      raises (Timetable.get_week self week home_tz))
  /\ Timetable.get_week monday_timetable week_of_2022_04_04 false
     = Raise (AttributeError
                "'Timetable' object has no attribute 'timetable'").
Proof.
  split; [|reflexivity].
  intros self week home_tz. unfold raises.
  destruct (dt_tzinfo week) eqn:E.
  - eexists. apply get_week_aware. unfold aware. congruence.
  - eexists. apply get_week_naive. exact E.
Qed.

(** C7.  On a timetable of three timepoints and an aware week, in either
    zone of the result, [get_week] raises the [AttributeError] of the
    read of [self.timetable] and returns no sequence; the sort is never
    reached. *)
Theorem get_week_raises_before_sort (home_tz : bool) :
  Timetable.get_week monday_timetable week_of_2022_03_21 home_tz
  = Raise (AttributeError "'Timetable' object has no attribute 'timetable'")
  /\ forall l,
      Timetable.get_week monday_timetable week_of_2022_03_21 home_tz
      <> Ok l.
Proof. split; [reflexivity | intros l; discriminate]. Qed.

(** C10.  Called without bounds, [Timetable.get_period] runs with
    [datetime.min] and [datetime.max], which are naive: the generator
    raises the awareness [ValueError] and yields nothing.
    [Schedule.get_period] yields nothing either, but its error is the
    [AttributeError] of the read of [self.get_period_timepoints], which
    comes before any test of the bounds. *)
Theorem get_period_default_bounds_raise (self : Timetable.t)
  (schedule : Schedule.t) (count_max : option Z) (home_tz : bool)
  (steps : nat) :
  Timetable.get_period self Timetable.datetime_min Timetable.datetime_max
    count_max home_tz steps
  = ([], Raised (ValueError "dt_from and dt_to must be aware datetimes"))
  /\ Schedule.get_period schedule Timetable.datetime_min
       Timetable.datetime_max count_max home_tz steps
     = ([], Raised (AttributeError
                      "'Schedule' object has no attribute 'get_period_timepoints'")).
Proof. split; reflexivity. Qed.

(** C4.  However long the walk is observed, [get_period] has yielded only
    entries whose instant lies between [dt_from] and [dt_to], and no more
    than [count_max] of them ([count_max] being a count, hence not
    negative, or absent). *)
Theorem get_period_within_bounds_and_count (self : Timetable.t)
  (dt_from dt_to : datetime) (count_max : option Z) (home_tz : bool)
  (steps : nat) :
  (forall m, count_max = Some m -> 0 <= m) ->
  let yielded :=
    fst (Timetable.get_period self dt_from dt_to count_max home_tz steps) in
  Forall (within dt_from dt_to) yielded
  /\ (forall m, count_max = Some m -> Z.of_nat (List.length yielded) <= m).
Proof.
  intros Hm. cbv zeta. rewrite get_period_yields_nothing.
  split; [constructor | intros m E; apply (Hm m E)].
Qed.

Lemma get_period_within_bounds_and_count_witness :
  (forall m, Some 2 = Some m -> 0 <= m)
  /\ Forall (within week_of_2022_04_04 to_2022_05_04)
       (fst (Timetable.get_period monday_timetable week_of_2022_04_04
               to_2022_05_04 (Some 2) false 5))
  /\ (forall m, Some 2 = Some m ->
      Z.of_nat (List.length
                  (fst (Timetable.get_period monday_timetable
                          week_of_2022_04_04 to_2022_05_04 (Some 2) false 5)))
      <= m).
Proof.
  assert (Hm : forall m, Some 2 = Some m -> 0 <= m).
  { intros m E. inversion E. lia. }
  split; [exact Hm|].
  exact (get_period_within_bounds_and_count monday_timetable
           week_of_2022_04_04 to_2022_05_04 (Some 2) false 5 Hm).
Defined.



(** ** Datetimes and weeks *)

Lemma us_per_day_value : us_per_day = 86400000000.
Proof. reflexivity. Qed.

Lemma tz_ok_utcoffset (tz : tzinfo) : tz_ok tz -> offset_ok (utcoffset tz).
Proof. destruct tz; simpl; tauto. Qed.

Lemma tzperiod_eqb_utcoffset (p q : tzperiod) :
  tzperiod_eqb p q = true -> p_utcoffset p = p_utcoffset q.
Proof.
  unfold tzperiod_eqb. intros H.
  apply andb_prop in H. destruct H as [H _].
  apply andb_prop in H. destruct H as [H _].
  apply Z.eqb_eq. exact H.
Qed.

Lemma tzinfo_is_utcoffset (a b : tzinfo) :
  tzinfo_is a b = true -> utcoffset a = utcoffset b.
Proof.
  destruct a as [x|z p], b as [y|z' q]; simpl; try discriminate.
  - apply Z.eqb_eq.
  - intros H. apply andb_prop in H. destruct H as [_ H].
    apply tzperiod_eqb_utcoffset. exact H.
Qed.

Lemma dt_ok_instant (dt : datetime) :
  dt_ok dt -> exists o, offset_ok o /\ instant dt = wall dt - o.
Proof.
  intros [tz [E Hok]]. exists (utcoffset tz).
  split; [apply tz_ok_utcoffset; exact Hok|].
  unfold instant. rewrite E. reflexivity.
Qed.

Lemma _dt_localize_dt_ok (dt : datetime) (tz : tzinfo) (r : datetime) :
  dt_tzinfo dt = None -> tz_ok tz ->
  _dt_localize dt (Some tz) = Ok r ->
  wall r = wall dt /\ dt_ok r.
Proof.
  intros Hn Hok. unfold _dt_localize, localize. destruct tz as [o|zone p].
  - intros H; inversion H; subst; simpl.
    split; [reflexivity|]. exists (FixedOffset o). auto.
  - rewrite Hn. intros H. apply localize_rec_ok in H.
    destruct H as [Hw [q [Hin Hq]]]. split; [exact Hw|].
    exists (PytzDst zone q). split; [exact Hq|].
    destruct Hok as [_ Hall]. split; [|exact Hall].
    rewrite Forall_forall in Hall. apply Hall. exact Hin.
Qed.

Lemma astimezone_wall (dt : datetime) (tz : tzinfo) :
  aware dt -> tz_ok tz ->
  exists o, offset_ok o /\ wall (astimezone dt tz) = instant dt + o.
Proof.
  unfold aware, astimezone, instant. intros Ha Hok.
  destruct (dt_tzinfo dt) as [mytz|] eqn:E; [|contradiction Ha; reflexivity].
  destruct (tzinfo_is tz mytz) eqn:Eis.
  - exists (utcoffset mytz). rewrite <- (tzinfo_is_utcoffset _ _ Eis).
    split; [apply tz_ok_utcoffset; exact Hok | lia].
  - destruct tz as [o|zone p]; simpl.
    + exists o. split; [exact Hok | reflexivity].
    + exists (p_utcoffset (period_at zone (wall dt - utcoffset mytz))).
      split; [|reflexivity]. destruct Hok as [_ Hall].
      rewrite Forall_forall in Hall. apply Hall. apply period_at_in.
Qed.

(** The Monday of a week is three days short of a multiple of seven. *)
Lemma monday_form (d : Z) : d + - ((d + 3) mod 7) = 7 * ((d + 3) / 7) - 3.
Proof. pose proof (Z.div_mod (d + 3) 7). lia. Qed.

Lemma monday_of_form (self : Timepoint.t) (week : datetime) :
  aware week -> tz_ok (Timepoint._timezone self) ->
  exists o, offset_ok o
    /\ monday_of self week
       = 7 * (((instant week + o) / us_per_day + 3) / 7) - 3.
Proof.
  intros Ha Hok.
  destruct (astimezone_wall week (Timepoint._timezone self) Ha Hok)
    as [o [Ho Hw]].
  exists o. split; [exact Ho|].
  unfold monday_of, weekday, date. rewrite Hw. apply monday_form.
Qed.

(** A week at least two days later lies in the same home week or in a
    later one. *)
Lemma monday_of_mono (self : Timepoint.t) (w1 w2 : datetime) :
  aware w1 -> aware w2 -> tz_ok (Timepoint._timezone self) ->
  instant w1 + 2 * us_per_day <= instant w2 ->
  monday_of self w1 = monday_of self w2
  \/ monday_of self w1 + 7 <= monday_of self w2.
Proof.
  intros Ha1 Ha2 Hok Hlate.
  destruct (monday_of_form self w1 Ha1 Hok) as [o1 [Ho1 ->]].
  destruct (monday_of_form self w2 Ha2 Hok) as [o2 [Ho2 ->]].
  unfold offset_ok in *.
  assert (Hd : (instant w1 + o1) / us_per_day
               <= (instant w2 + o2) / us_per_day).
  { apply Z.div_le_mono; [reflexivity | lia]. }
  assert (Hq : ((instant w1 + o1) / us_per_day + 3) / 7
               <= ((instant w2 + o2) / us_per_day + 3) / 7).
  { apply Z.div_le_mono; lia. }
  lia.
Qed.

Lemma combine_date (d t : Z) :
  0 <= t < us_per_day -> date (combine d t) = d.
Proof.
  intros Ht. unfold date, combine. simpl.
  rewrite Z.add_comm, Z.div_add by (rewrite us_per_day_value; lia).
  rewrite Z.div_small by exact Ht. reflexivity.
Qed.

(** [get_datetime] by its steps: the timepoint's offset, the naive value
    built on the Monday of the week, its localisation; the result is at
    the instant of the localised value. *)
Lemma get_datetime_steps (self : Timepoint.t) (week : datetime)
  (home_timezone : bool) (d : datetime) :
  Timepoint.get_datetime self week home_timezone = Ok d ->
  exists m loc,
    Timepoint.m_offset self = Ok m
    /\ _dt_localize
         (combine (monday_of self week
                   + days (timedelta_minutes (int_value m)))
                  (time (seconds (timedelta_minutes (int_value m)) / 3600)
                        (seconds (timedelta_minutes (int_value m)) / 60
                         mod 60)))
         (Some (Timepoint._timezone self)) = Ok loc
    /\ instant d = instant loc.
Proof.
  unfold Timepoint.get_datetime.
  destruct (dt_tzinfo week) as [week_timezone|] eqn:Ew; [|discriminate].
  intros H. apply bind_ok in H. destruct H as [week_start [Hs H]].
  apply bind_ok in H. destruct H as [td [Htd H]].
  apply bind_ok in H. destruct H as [loc [Hloc H]].
  unfold Timepoint.get_timedelta in Htd. apply bind_ok in Htd.
  destruct Htd as [m [Hm Htd]]. inversion Htd; subst td. clear Htd.
  assert (Haw : aware week) by (unfold aware; rewrite Ew; discriminate).
  pose proof (astimezone_aware week (Timepoint._timezone self) Haw) as Hwk.
  unfold aware in Hwk.
  destruct (dt_tzinfo (astimezone week (Timepoint._timezone self)))
    as [tz|] eqn:Etz; [|contradiction Hwk; reflexivity].
  apply _dt_localize_ok in Hs; [|reflexivity]. destruct Hs as [Hsw _].
  assert (Hdate : date week_start = monday_of self week).
  { unfold date. rewrite Hsw. unfold monday_of.
    apply (combine_date _ 0). rewrite us_per_day_value. lia. }
  rewrite Hdate in Hloc.
  exists m, loc. split; [exact Hm | split; [exact Hloc|]].
  pose proof Hloc as Hloc'.
  apply _dt_localize_ok in Hloc'; [|reflexivity]. destruct Hloc' as [_ Hal].
  inversion H; subst. destruct home_timezone; [reflexivity|].
  apply astimezone_instant. exact Hal.
Qed.

(** X26.  The same timepoint resolved in a week at least two days later
    is not earlier, whatever the zones and the changes of offset between
    the two weeks. *)
Theorem get_datetime_later_week_not_earlier
  (self : Timepoint.t) (w1 w2 d1 d2 : datetime)
  (home_timezone : bool) :
  tz_ok (Timepoint._timezone self) ->
  instant w1 + 2 * us_per_day <= instant w2 ->
  Timepoint.get_datetime self w1 home_timezone = Ok d1 ->
  Timepoint.get_datetime self w2 home_timezone = Ok d2 ->
  instant d1 <= instant d2.
Proof.
  intros Hok Hlate H1 H2.
  assert (Ha1 : aware w1).
  { unfold aware. intros E. unfold Timepoint.get_datetime in H1.
    rewrite E in H1. discriminate. }
  assert (Ha2 : aware w2).
  { unfold aware. intros E. unfold Timepoint.get_datetime in H2.
    rewrite E in H2. discriminate. }
  apply get_datetime_steps in H1. destruct H1 as [m1 [loc1 [Hm1 [Hl1 ->]]]].
  apply get_datetime_steps in H2. destruct H2 as [m2 [loc2 [Hm2 [Hl2 ->]]]].
  rewrite Hm1 in Hm2. inversion Hm2; subst m2. clear Hm2.
  destruct (monday_of_mono self w1 w2 Ha1 Ha2 Hok Hlate) as [Heq | Hlt].
  - rewrite Heq in Hl1. rewrite Hl1 in Hl2. inversion Hl2. lia.
  - apply _dt_localize_dt_ok in Hl1; [|reflexivity | exact Hok].
    apply _dt_localize_dt_ok in Hl2; [|reflexivity | exact Hok].
    destruct Hl1 as [Hw1 Hok1]. destruct Hl2 as [Hw2 Hok2].
    destruct (dt_ok_instant _ Hok1) as [o1 [Ho1 ->]].
    destruct (dt_ok_instant _ Hok2) as [o2 [Ho2 ->]].
    rewrite Hw1, Hw2. unfold combine, offset_ok in *. simpl.
    rewrite us_per_day_value in *. lia.
Qed.

(** What one week yields comes from the week's list. *)
(** ** Localisation around a transition *)

Lemma possible_loc_dt_cases (zone : DstTzInfo) (w : Z) :
  possible_loc_dt zone w =
  let c1 := normalize zone w (period_at zone (w + - us_per_day)) in
  let c2 := normalize zone w (period_at zone (w + us_per_day)) in
  match wall c1 =? w, wall c2 =? w with
  | true, true => if instant c1 =? instant c2 then [c1] else [c1; c2]
  | true, false => [c1]
  | false, true => [c2]
  | false, false => []
  end.
Proof.
  unfold possible_loc_dt. cbn [filter]. cbv zeta.
  destruct (wall (normalize zone w (period_at zone (w + - us_per_day))) =? w);
    destruct (wall (normalize zone w (period_at zone (w + us_per_day))) =? w);
    reflexivity.
Qed.

Lemma localize_rec_possible (depth : nat) (zone : DstTzInfo) (w : Z)
  (is_dst : bool) (c : datetime) :
  possible_loc_dt zone w = [c] -> localize_rec depth zone w is_dst = Ok c.
Proof. intros H. destruct depth; simpl; rewrite H; reflexivity. Qed.

Lemma localize_rec_nonexistent (depth : nat) (zone : DstTzInfo) (w : Z) :
  possible_loc_dt zone w = [] ->
  localize_rec (S depth) zone w false =
  (loc <- localize_rec depth zone (w - 6 * us_per_hour) false ;;
   Ok (mk_datetime (wall loc + 6 * us_per_hour) (dt_tzinfo loc))).
Proof.
  intros H. change (localize_rec (S depth) zone w false) with
    (match possible_loc_dt zone w with
     | [loc_dt] => Ok loc_dt
     | [] =>
         loc <- localize_rec depth zone (w - 6 * us_per_hour) false ;;
         Ok (mk_datetime (wall loc + 6 * us_per_hour) (dt_tzinfo loc))
     | first :: _ =>
         Ok (choose_ambiguous (possible_loc_dt zone w) false first)
     end).
  rewrite H. reflexivity.
Qed.

Lemma localize_rec_nonempty (depth : nat) (zone : DstTzInfo) (w : Z)
  (is_dst : bool) :
  possible_loc_dt zone w <> [] ->
  exists d, localize_rec depth zone w is_dst = Ok d.
Proof.
  intros H. destruct depth; simpl;
    destruct (possible_loc_dt zone w) as [|c1 [|c2 rest]];
    try (contradiction H; reflexivity); eauto.
Qed.

(** The period in force at [u] when every transition of the list is
    later. *)
Lemma period_from_early (current : tzperiod)
  (transitions : list (Z * tzperiod)) (u : Z) :
  Forall (fun e => u < fst e) transitions ->
  period_from current transitions u = current.
Proof.
  intros H. destruct transitions as [|[v p] rest]; [reflexivity|].
  inversion H; subst. simpl in *.
  destruct (Z.leb_spec v u); [lia | reflexivity].
Qed.

(** Three days on either side of a transition no other transition
    happens: one period is in force before it, its own period after. *)
Lemma period_from_near (transitions : list (Z * tzperiod))
  (current : tzperiod) (t : Z) (q : tzperiod) :
  StronglySorted apart transitions ->
  In (t, q) transitions ->
  (forall u, t - 3 * us_per_day <= u < t ->
             period_from current transitions u
             = period_from current transitions (t - 1))
  /\ (forall u, t <= u < t + 3 * us_per_day ->
                period_from current transitions u = q).
Proof.
  intros Hs. revert current.
  induction Hs as [|[t0 p0] rest Hs IH Hall]; intros current Hin.
  - contradiction.
  - pose proof us_per_day_value as Hday. destruct Hin as [E | Hin].
    + inversion E; subst t0 p0. split; intros u Hu; simpl.
      * destruct (Z.leb_spec t u); [lia|].
        destruct (Z.leb_spec t (t - 1)); [lia | reflexivity].
      * destruct (Z.leb_spec t u); [|lia]. apply period_from_early.
        eapply Forall_impl; [|exact Hall].
        intros [v r] Hv. unfold apart in Hv. simpl in *. lia.
    + assert (Ht : t0 + 3 * us_per_day <= t).
      { rewrite Forall_forall in Hall. apply (Hall (t, q) Hin). }
      destruct (IH p0 Hin) as [Hb Ha]. split; intros u Hu; simpl.
      * destruct (Z.leb_spec t0 u); [|lia].
        destruct (Z.leb_spec t0 (t - 1)); [|lia]. apply Hb; exact Hu.
      * destruct (Z.leb_spec t0 u); [|lia]. apply Ha; exact Hu.
Qed.

(** Between two instants either one period is in force throughout, or a
    transition happens. *)
Lemma period_from_window (transitions : list (Z * tzperiod))
  (current : tzperiod) (a b : Z) :
  (forall u, a <= u <= b ->
             period_from current transitions u
             = period_from current transitions a)
  \/ exists t q, In (t, q) transitions /\ a < t <= b.
Proof.
  revert current. induction transitions as [|[t0 p0] rest IH]; intros current.
  - left. reflexivity.
  - destruct (Z.le_gt_cases t0 a) as [H0 | H0].
    + destruct (IH p0) as [Hc | [t [q [Hin Ht]]]].
      * left. intros u Hu. simpl.
        destruct (Z.leb_spec t0 u); [|lia].
        destruct (Z.leb_spec t0 a); [|lia]. apply Hc; exact Hu.
      * right. exists t, q. split; [right; exact Hin | exact Ht].
    + destruct (Z.le_gt_cases t0 b) as [H1 | H1].
      * right. exists t0, p0. split; [left; reflexivity | lia].
      * left. intros u Hu. simpl.
        destruct (Z.leb_spec t0 u); [lia|].
        destruct (Z.leb_spec t0 a); [lia | reflexivity].
Qed.

(** [localize] around one transition at [t] from the period [before] to
    the period [after], with no other transition within three days. *)
Section transition.
Variable zone : DstTzInfo.
Variable t : Z.
Variables before after : tzperiod.
Hypothesis period_before :
  forall u, t - 3 * us_per_day <= u < t -> period_at zone u = before.
Hypothesis period_after :
  forall u, t <= u < t + 3 * us_per_day -> period_at zone u = after.
Hypothesis before_ok : offset_ok (p_utcoffset before).
Hypothesis after_ok : offset_ok (p_utcoffset after).

Local Ltac facts :=
  pose proof before_ok as [Hb1 Hb2];
  pose proof after_ok as [Ha1 Ha2];
  pose proof us_per_day_value as Hday;
  assert (Hhour : us_per_hour = 3600000000) by reflexivity.

Lemma fromutc_before (u : Z) :
  t - 3 * us_per_day <= u < t ->
  fromutc zone u
  = mk_datetime (u + p_utcoffset before) (Some (PytzDst zone before)).
Proof.
  intros H. unfold fromutc. rewrite period_before by exact H. reflexivity.
Qed.

Lemma fromutc_after (u : Z) :
  t <= u < t + 3 * us_per_day ->
  fromutc zone u
  = mk_datetime (u + p_utcoffset after) (Some (PytzDst zone after)).
Proof.
  intros H. unfold fromutc. rewrite period_after by exact H. reflexivity.
Qed.

(** The candidates of [localize] for a wall-clock value within a day of
    the transition: the reading in [before] counts up to the transition,
    the reading in [after] from the transition on. *)
Lemma possible_near (w : Z) :
  w - us_per_day < t <= w + us_per_day ->
  possible_loc_dt zone w =
  match w <? t + p_utcoffset before, t + p_utcoffset after <=? w with
  | true, true => [mk_datetime w (Some (PytzDst zone before));
                   mk_datetime w (Some (PytzDst zone after))]
  | true, false => [mk_datetime w (Some (PytzDst zone before))]
  | false, true => [mk_datetime w (Some (PytzDst zone after))]
  | false, false => []
  end.
Proof.
  facts. intros Hw. rewrite possible_loc_dt_cases. cbv zeta.
  rewrite (period_before (w + - us_per_day)) by lia.
  rewrite (period_after (w + us_per_day)) by lia.
  unfold normalize.
  assert (Eb : w - p_utcoffset before + p_utcoffset before = w) by lia.
  assert (Ea : w - p_utcoffset after + p_utcoffset after = w) by lia.
  destruct (Z.ltb_spec w (t + p_utcoffset before)) as [H1 | H1];
    destruct (Z.leb_spec (t + p_utcoffset after) w) as [H2 | H2].
  - rewrite (fromutc_before (w - p_utcoffset before)) by lia.
    rewrite (fromutc_after (w - p_utcoffset after)) by lia.
    cbn [wall]. rewrite Eb, Ea, Z.eqb_refl.
    unfold instant. cbn [dt_tzinfo wall utcoffset].
    destruct (Z.eqb_spec (w - p_utcoffset before) (w - p_utcoffset after));
      [lia | reflexivity].
  - rewrite (fromutc_before (w - p_utcoffset before)) by lia.
    rewrite (fromutc_before (w - p_utcoffset after)) by lia.
    cbn [wall]. rewrite Eb, Z.eqb_refl.
    destruct (Z.eqb_spec (w - p_utcoffset after + p_utcoffset before) w)
      as [E | E]; [|reflexivity].
    rewrite E, Z.eqb_refl. reflexivity.
  - rewrite (fromutc_after (w - p_utcoffset before)) by lia.
    rewrite (fromutc_after (w - p_utcoffset after)) by lia.
    cbn [wall]. rewrite Ea, Z.eqb_refl.
    destruct (Z.eqb_spec (w - p_utcoffset before + p_utcoffset after) w)
      as [E | E]; [|reflexivity].
    rewrite E, Z.eqb_refl. reflexivity.
  - rewrite (fromutc_after (w - p_utcoffset before)) by lia.
    rewrite (fromutc_before (w - p_utcoffset after)) by lia.
    cbn [wall].
    destruct (Z.eqb_spec (w - p_utcoffset before + p_utcoffset after) w);
      [lia|].
    destruct (Z.eqb_spec (w - p_utcoffset after + p_utcoffset before) w);
      [lia | reflexivity].
Qed.

(** More than a day before the transition only [before] is in sight. *)
Lemma possible_early (w : Z) :
  t - 2 * us_per_day <= w -> w + us_per_day < t ->
  possible_loc_dt zone w = [mk_datetime w (Some (PytzDst zone before))].
Proof.
  facts. intros Hlow Hhigh. rewrite possible_loc_dt_cases. cbv zeta.
  rewrite (period_before (w + - us_per_day)) by lia.
  rewrite (period_before (w + us_per_day)) by lia.
  unfold normalize.
  rewrite (fromutc_before (w - p_utcoffset before)) by lia.
  cbn [wall].
  replace (w - p_utcoffset before + p_utcoffset before) with w by lia.
  rewrite !Z.eqb_refl. reflexivity.
Qed.

(** In the fold both readings count, and [localize] settles on
    [fold_choice]. *)
Lemma localize_fold (depth : nat) (w : Z) :
  in_fold before after t w ->
  localize_rec depth zone w false
  = Ok (mk_datetime w (Some (PytzDst zone (fold_choice before after)))).
Proof.
  facts. unfold in_fold. intros Hw.
  assert (Hposs : possible_loc_dt zone w
                  = [mk_datetime w (Some (PytzDst zone before));
                     mk_datetime w (Some (PytzDst zone after))]).
  { rewrite possible_near by lia.
    destruct (Z.ltb_spec w (t + p_utcoffset before)); [|lia].
    destruct (Z.leb_spec (t + p_utcoffset after) w); [reflexivity | lia]. }
  assert (Hchoice :
            choose_ambiguous
              [mk_datetime w (Some (PytzDst zone before));
               mk_datetime w (Some (PytzDst zone after))]
              false (mk_datetime w (Some (PytzDst zone before)))
            = mk_datetime w (Some (PytzDst zone (fold_choice before after)))).
  { unfold choose_ambiguous, fold_choice.
    cbn [filter bound_period dt_tzinfo].
    assert (Hlater : (w - p_utcoffset before <? w - p_utcoffset after) = true)
      by (apply Z.ltb_lt; lia).
    destruct (p_dst before =? 0); destruct (p_dst after =? 0);
      cbn [negb Bool.eqb andb fold_left]; unfold by_utc, instant;
      cbn [dt_tzinfo wall utcoffset]; rewrite ?Z.ltb_irrefl;
      cbn [dt_tzinfo wall utcoffset]; rewrite ?Hlater; reflexivity. }
  destruct depth; simpl; rewrite Hposs; rewrite Hchoice; reflexivity.
Qed.

Lemma possible_gap (w : Z) :
  in_gap before after t w -> possible_loc_dt zone w = [].
Proof.
  facts. unfold in_gap. intros Hw. rewrite possible_near by lia.
  destruct (Z.ltb_spec w (t + p_utcoffset before)); [lia|].
  destruct (Z.leb_spec (t + p_utcoffset after) w); [lia | reflexivity].
Qed.

(** Up to six hours before a gap the wall clock is read once, in
    [before]. *)
Lemma possible_before_gap (w : Z) :
  p_utcoffset before < p_utcoffset after ->
  t + p_utcoffset before - 6 * us_per_hour <= w < t + p_utcoffset before ->
  possible_loc_dt zone w = [mk_datetime w (Some (PytzDst zone before))].
Proof.
  facts. intros Hgap Hw.
  destruct (Z.le_gt_cases t (w + us_per_day)) as [Hnear | Hfar].
  - rewrite possible_near by lia.
    destruct (Z.ltb_spec w (t + p_utcoffset before)); [|lia].
    destruct (Z.leb_spec (t + p_utcoffset after) w); [lia | reflexivity].
  - apply possible_early; lia.
Qed.

(** In the gap no reading counts; [localize] steps back six hours at a
    time until it is out of the gap, and answers with the wall-clock value
    unchanged, in [before]. *)
Lemma localize_gap_steps (k : nat) :
  forall (depth : nat) (w : Z),
    (k <= depth)%nat ->
    in_gap before after t w ->
    w < t + p_utcoffset before + Z.of_nat k * (6 * us_per_hour) ->
    localize_rec depth zone w false
    = Ok (mk_datetime w (Some (PytzDst zone before))).
Proof.
  facts. induction k as [|k IH]; intros depth w Hd Hg Hk.
  - unfold in_gap in Hg. lia.
  - destruct depth as [|depth]; [lia|].
    rewrite (localize_rec_nonexistent depth zone w (possible_gap w Hg)).
    unfold in_gap in Hg.
    destruct (Z.lt_ge_cases (w - 6 * us_per_hour) (t + p_utcoffset before))
      as [Hlow | Hin].
    + rewrite (localize_rec_possible depth zone (w - 6 * us_per_hour) false
                 (mk_datetime (w - 6 * us_per_hour)
                              (Some (PytzDst zone before)))).
      * cbn [bind wall dt_tzinfo]. f_equal. f_equal. lia.
      * apply possible_before_gap; lia.
    + rewrite (IH depth (w - 6 * us_per_hour)).
      * cbn [bind wall dt_tzinfo]. f_equal. f_equal. lia.
      * lia.
      * unfold in_gap. lia.
      * rewrite Nat2Z.inj_succ in Hk. lia.
Qed.

Lemma localize_gap (depth : nat) (w : Z) :
  (8 <= depth)%nat ->
  in_gap before after t w ->
  localize_rec depth zone w false
  = Ok (mk_datetime w (Some (PytzDst zone before))).
Proof.
  facts. intros Hd Hg. apply (localize_gap_steps 8); [exact Hd | exact Hg |].
  unfold in_gap in Hg. lia.
Qed.

(** Within a day of the transition [localize] always answers. *)
Lemma localize_near (depth : nat) (w : Z) :
  (8 <= depth)%nat ->
  w - us_per_day < t <= w + us_per_day ->
  exists d, localize_rec depth zone w false = Ok d.
Proof.
  intros Hd Hw.
  destruct (Z.ltb_spec w (t + p_utcoffset before)) as [H1 | H1].
  - apply localize_rec_nonempty. rewrite possible_near by exact Hw.
    destruct (Z.ltb_spec w (t + p_utcoffset before)); [|lia].
    destruct (t + p_utcoffset after <=? w); discriminate.
  - destruct (Z.leb_spec (t + p_utcoffset after) w) as [H2 | H2].
    + apply localize_rec_nonempty. rewrite possible_near by exact Hw.
      destruct (Z.ltb_spec w (t + p_utcoffset before)); [lia|].
      destruct (Z.leb_spec (t + p_utcoffset after) w); [discriminate | lia].
    + eexists. apply localize_gap; [exact Hd|]. unfold in_gap. lia.
Qed.

End transition.

(** What a zone with transitions apart gives around each of them. *)
Lemma transitions_apart_near (zone : DstTzInfo) (t : Z) (after : tzperiod) :
  transitions_apart zone ->
  In (t, after) (tz_transitions zone) ->
  (forall u, t - 3 * us_per_day <= u < t ->
             period_at zone u = period_at zone (t - 1))
  /\ (forall u, t <= u < t + 3 * us_per_day -> period_at zone u = after)
  /\ offset_ok (p_utcoffset (period_at zone (t - 1)))
  /\ offset_ok (p_utcoffset after).
Proof.
  intros [Hs Hall] Hin. rewrite Forall_forall in Hall.
  destruct (period_from_near (tz_transitions zone) (tz_first zone) t after
              Hs Hin) as [Hb Ha].
  split; [exact Hb | split; [exact Ha | split]].
  - apply Hall. apply period_at_in.
  - apply Hall. right. apply (in_map snd _ _ Hin).
Qed.

(** On a zone with transitions apart [localize] always answers. *)
Lemma localize_total (zone : DstTzInfo) (depth : nat) (w : Z) :
  transitions_apart zone ->
  (8 <= depth)%nat ->
  exists d, localize_rec depth zone w false = Ok d.
Proof.
  intros Hzone Hd. pose proof us_per_day_value as Hday.
  destruct (period_from_window (tz_transitions zone) (tz_first zone)
              (w + - us_per_day) (w + us_per_day))
    as [Hc | [t [q [Hin Ht]]]].
  - fold (period_at zone (w + - us_per_day)) in Hc.
    apply localize_rec_nonempty. rewrite possible_loc_dt_cases. cbv zeta.
    set (P := period_at zone (w + - us_per_day)) in *.
    assert (HP : offset_ok (p_utcoffset P)).
    { destruct Hzone as [_ Hall]. rewrite Forall_forall in Hall.
      apply Hall. apply period_at_in. }
    destruct HP as [HP1 HP2].
    assert (E2 : period_at zone (w + us_per_day) = P).
    { apply (Hc (w + us_per_day)). lia. }
    rewrite E2.
    assert (E : normalize zone w P = mk_datetime w (Some (PytzDst zone P))).
    { unfold normalize, fromutc.
      assert (E1 : period_at zone (w - p_utcoffset P) = P).
      { apply (Hc (w - p_utcoffset P)). lia. }
      rewrite E1. f_equal. lia. }
    rewrite E. cbn [wall]. rewrite !Z.eqb_refl. discriminate.
  - destruct (transitions_apart_near zone t q Hzone Hin)
      as [Hb [Ha [Hob Hoa]]].
    apply (localize_near zone t (period_at zone (t - 1)) q Hb Ha Hob Hoa).
    + exact Hd.
    + lia.
Qed.

(** ** The instant of a timepoint *)

Lemma timedelta_minutes_days (m : Z) : days (timedelta_minutes m) = m / 1440.
Proof.
  unfold timedelta_minutes. simpl.
  change 86400 with (1440 * 60). apply Z.div_mul_cancel_r; lia.
Qed.

Lemma timedelta_minutes_time (m : Z) :
  time (seconds (timedelta_minutes m) / 3600)
       (seconds (timedelta_minutes m) / 60 mod 60)
  = (m mod 1440) * us_per_minute.
Proof.
  unfold timedelta_minutes. simpl.
  change 86400 with (1440 * 60).
  rewrite Z.mul_mod_distr_r by lia.
  pose proof (Z.mod_pos_bound m 1440 ltac:(lia)) as Hr.
  set (r := m mod 1440) in *.
  change 3600 with (60 * 60).
  rewrite <- Z.div_div by lia.
  rewrite Z.div_mul by lia.
  unfold time. pose proof (Z.div_mod r 60 ltac:(lia)) as Hdm.
  assert (Hh : us_per_hour = 60 * us_per_minute) by reflexivity.
  rewrite Hh. lia.
Qed.

Lemma tzperiod_eqb_eq (p q : tzperiod) : tzperiod_eqb p q = true -> p = q.
Proof.
  unfold tzperiod_eqb. destruct p, q. simpl. intros H.
  apply andb_prop in H. destruct H as [H Hn].
  apply andb_prop in H. destruct H as [Ho Hd].
  apply Z.eqb_eq in Ho. apply Z.eqb_eq in Hd. apply String.eqb_eq in Hn.
  congruence.
Qed.

Lemma transitions_eqb_eq (l m : list (Z * tzperiod)) :
  transitions_eqb l m = true -> l = m.
Proof.
  revert m. induction l as [|[t p] l IH]; intros [|[u q] m]; simpl;
    try discriminate; try reflexivity.
  intros H. apply andb_prop in H. destruct H as [H Hr].
  apply andb_prop in H. destruct H as [Ht Hp].
  apply Z.eqb_eq in Ht. apply tzperiod_eqb_eq in Hp.
  rewrite (IH m Hr). congruence.
Qed.

Lemma tzinfo_is_eq (a b : tzinfo) : tzinfo_is a b = true -> a = b.
Proof.
  destruct a as [x|z p], b as [y|z' q]; simpl; try discriminate.
  - intros H. apply Z.eqb_eq in H. congruence.
  - intros H. apply andb_prop in H. destruct H as [H Hp].
    apply andb_prop in H. destruct H as [Hf Ht].
    apply tzperiod_eqb_eq in Hp. apply tzperiod_eqb_eq in Hf.
    apply transitions_eqb_eq in Ht. destruct z, z'. simpl in *. congruence.
Qed.

Lemma astimezone_pytz (dt : datetime) (zone : DstTzInfo) (p : tzperiod) :
  aware dt ->
  exists q, dt_tzinfo (astimezone dt (PytzDst zone p))
            = Some (PytzDst zone q).
Proof.
  unfold aware, astimezone. intros Ha.
  destruct (dt_tzinfo dt) as [mytz|] eqn:E; [|contradiction Ha; reflexivity].
  destruct (tzinfo_is (PytzDst zone p) mytz) eqn:Eis.
  - apply tzinfo_is_eq in Eis. subst mytz. exists p. exact E.
  - eexists. reflexivity.
Qed.

(** [get_datetime] from its steps: with an aware week, a week start that
    localises and an offset of [m] minutes, the result is the localised
    [naive_wall], shown in the zone asked for. *)
Lemma get_datetime_compute (self : Timepoint.t) (week : datetime)
  (home_timezone : bool) (week_timezone : tzinfo) (m : Node)
  (week_start loc : datetime) :
  dt_tzinfo week = Some week_timezone ->
  _dt_localize (combine (monday_of self week) 0)
    (dt_tzinfo (astimezone week (Timepoint._timezone self))) = Ok week_start ->
  Timepoint.m_offset self = Ok m ->
  _dt_localize (mk_datetime (naive_wall self week (int_value m)) None)
    (Some (Timepoint._timezone self)) = Ok loc ->
  Timepoint.get_datetime self week home_timezone
  = Ok (if home_timezone then loc else astimezone loc week_timezone).
Proof.
  intros Ew Hs Hm Hloc. unfold Timepoint.get_datetime. rewrite Ew.
  fold (monday_of self week). rewrite Hs. cbn [bind].
  unfold Timepoint.get_timedelta. rewrite Hm. cbn [bind].
  assert (Haw : aware week) by (unfold aware; rewrite Ew; discriminate).
  pose proof (astimezone_aware week (Timepoint._timezone self) Haw) as Hwk.
  unfold aware in Hwk.
  destruct (dt_tzinfo (astimezone week (Timepoint._timezone self)))
    as [tz|] eqn:Etz; [|contradiction Hwk; reflexivity].
  apply _dt_localize_ok in Hs; [|reflexivity]. destruct Hs as [Hsw _].
  assert (Hdate : date week_start = monday_of self week).
  { unfold date. rewrite Hsw.
    apply (combine_date _ 0). rewrite us_per_day_value. lia. }
  rewrite Hdate, timedelta_minutes_days, timedelta_minutes_time.
  unfold combine. fold (naive_wall self week (int_value m)).
  rewrite Hloc. reflexivity.
Qed.

Lemma fold_choice_after (before after : tzperiod) :
  p_dst before <> 0 \/ p_dst after = 0 -> fold_choice before after = after.
Proof.
  unfold fold_choice. intros [H | H].
  - apply Z.eqb_neq in H. rewrite H. reflexivity.
  - rewrite H. simpl. rewrite andb_false_r. reflexivity.
Qed.

Lemma fold_choice_before (before after : tzperiod) :
  p_dst before = 0 -> p_dst after <> 0 -> fold_choice before after = before.
Proof.
  unfold fold_choice. intros Hb Ha. apply Z.eqb_neq in Ha.
  rewrite Hb, Ha. reflexivity.
Qed.

(** C3, as amended.  In a pytz zone whose transitions are at least three
    days apart, take a timepoint whose naive wall-clock value [w] (the
    Monday of the home week plus [m div 1440] days, at [m mod 1440]
    minutes) falls in the fold or in the gap of a transition at [t] from
    the period [before] to the period [after].  [get_datetime] returns.
    In the fold, where [w] is read at two instants, the earlier in
    [before] and the later in [after], the result is the reading in
    [fold_choice before after], pytz's answer for [is_dst=False]: the
    period with [dst] zero when exactly one of the two has, otherwise
    [after].  In the gap the result keeps [w] with the offset of [before],
    an instant at which the zone reads the wall clock [w] moved forward by
    the width of the gap. *)
Theorem get_datetime_localizes_in_standard_time (zone : DstTzInfo) (t : Z)
  (after p : tzperiod) (self : Timepoint.t) (week : datetime)
  (home_timezone : bool) (m : Node) :
  transitions_apart zone ->
  In (t, after) (tz_transitions zone) ->
  Timepoint._timezone self = PytzDst zone p ->
  aware week ->
  Timepoint.m_offset self = Ok m ->
  in_fold (before_transition zone t) after t
    (naive_wall self week (int_value m))
  \/ in_gap (before_transition zone t) after t
       (naive_wall self week (int_value m)) ->
  exists d,
    Timepoint.get_datetime self week home_timezone = Ok d
    /\ (in_fold (before_transition zone t) after t
          (naive_wall self week (int_value m)) ->
        wall (fromutc zone
                (naive_wall self week (int_value m)
                 - p_utcoffset (before_transition zone t)))
        = naive_wall self week (int_value m)
        /\ wall (fromutc zone
                   (naive_wall self week (int_value m) - p_utcoffset after))
           = naive_wall self week (int_value m)
        /\ naive_wall self week (int_value m)
           - p_utcoffset (before_transition zone t)
           < naive_wall self week (int_value m) - p_utcoffset after
        /\ instant d
           = naive_wall self week (int_value m)
             - p_utcoffset (fold_choice (before_transition zone t) after)
        /\ (home_timezone = true ->
            d = mk_datetime (naive_wall self week (int_value m))
                  (Some (PytzDst zone
                           (fold_choice (before_transition zone t) after)))))
    /\ (in_gap (before_transition zone t) after t
          (naive_wall self week (int_value m)) ->
        instant d
        = naive_wall self week (int_value m)
          - p_utcoffset (before_transition zone t)
        /\ (home_timezone = true ->
            d = mk_datetime (naive_wall self week (int_value m))
                  (Some (PytzDst zone (before_transition zone t))))
        /\ wall (fromutc zone (instant d))
           = naive_wall self week (int_value m)
             + (p_utcoffset after
                - p_utcoffset (before_transition zone t))).
Proof.
  intros Hzone Hin Htz Ha Hm Hw.
  set (before := before_transition zone t) in *.
  set (w := naive_wall self week (int_value m)) in *.
  destruct (transitions_apart_near zone t after Hzone Hin)
    as [Hb [Haf [Hob Hoa]]].
  fold (before_transition zone t) in Hb, Hob. fold before in Hb, Hob.
  pose proof Hob as [Hb1 Hb2]. pose proof Hoa as [Ha1 Ha2].
  pose proof us_per_day_value as Hday.
  assert (Hweek : exists tz, dt_tzinfo week = Some tz).
  { unfold aware in Ha. destruct (dt_tzinfo week); [eauto | contradiction]. }
  destruct Hweek as [week_timezone Ew].
  (* the week start localises *)
  assert (Hstart : exists ws,
             _dt_localize (combine (monday_of self week) 0)
               (dt_tzinfo (astimezone week (Timepoint._timezone self)))
             = Ok ws).
  { rewrite Htz. destruct (astimezone_pytz week zone p Ha) as [q ->].
    unfold _dt_localize, localize. simpl dt_tzinfo.
    apply localize_total; [exact Hzone | unfold recursion_limit; lia]. }
  destruct Hstart as [ws Hws].
  (* what follows once the naive value is localised *)
  assert (Hres : forall chosen,
             _dt_localize (mk_datetime w None)
               (Some (Timepoint._timezone self))
             = Ok (mk_datetime w (Some (PytzDst zone chosen))) ->
             exists d,
               Timepoint.get_datetime self week home_timezone = Ok d
               /\ instant d = w - p_utcoffset chosen
               /\ (home_timezone = true ->
                   d = mk_datetime w (Some (PytzDst zone chosen)))).
  { intros chosen Hloc.
    pose proof (get_datetime_compute self week home_timezone week_timezone
                  m ws _ Ew Hws Hm Hloc) as Hget.
    eexists. split; [exact Hget|]. split.
    - destruct home_timezone; [reflexivity|].
      rewrite astimezone_instant; [reflexivity|].
      unfold aware. simpl. discriminate.
    - intros ->. reflexivity. }
  unfold in_fold, in_gap in *. destruct Hw as [Hf | Hg].
  - destruct (Hres (fold_choice before after)) as [d [Hd [Hi Hh]]].
    { rewrite Htz. unfold _dt_localize, localize. simpl dt_tzinfo.
      simpl wall.
      apply (localize_fold zone t before after Hb Haf Hob Hoa). exact Hf. }
    exists d. split; [exact Hd|].
    split; [intros _ | intros Hg; exfalso; lia].
    split; [|split; [|split; [lia | split; [exact Hi | exact Hh]]]].
    + rewrite (fromutc_before zone t before Hb) by lia. simpl. lia.
    + rewrite (fromutc_after zone t after Haf) by lia. simpl. lia.
  - destruct (Hres before) as [d [Hd [Hi Hh]]].
    { rewrite Htz. unfold _dt_localize, localize. simpl dt_tzinfo.
      simpl wall.
      apply (localize_gap zone t before after Hb Haf Hob Hoa);
        [unfold recursion_limit; lia | exact Hg]. }
    exists d. split; [exact Hd|].
    split; [intros Hf; exfalso; lia | intros _].
    split; [exact Hi | split; [exact Hh|]].
    rewrite Hi. rewrite (fromutc_after zone t after Haf) by lia.
    simpl. lia.
Qed.

Lemma Vienna_apart : transitions_apart Vienna.
Proof.
  split.
  - unfold Vienna, apart. cbn [tz_transitions].
    repeat (apply SSorted_cons || apply SSorted_nil
            || apply Forall_cons || apply Forall_nil);
      vm_compute; discriminate.
  - unfold offset_ok. cbn.
    repeat (apply Forall_cons || apply Forall_nil);
      split; vm_compute; reflexivity.
Qed.

Lemma Dublin_apart : transitions_apart Dublin.
Proof.
  split.
  - unfold Dublin, apart. cbn [tz_transitions].
    repeat (apply SSorted_cons || apply SSorted_nil
            || apply Forall_cons || apply Forall_nil);
      vm_compute; discriminate.
  - unfold offset_ok. cbn.
    repeat (apply Forall_cons || apply Forall_nil);
      split; vm_compute; reflexivity.
Qed.

Lemma sunday_0230_in_fold :
  in_fold (before_transition Vienna (wall (at_ 2022 10 30 1 0 None))) CET
    (wall (at_ 2022 10 30 1 0 None))
    (naive_wall sunday_0230 week_of_2022_10_24 (int_value (NInt 8790))).
Proof.
  unfold in_fold. split; [vm_compute; discriminate | vm_compute; reflexivity].
Qed.

Lemma get_datetime_localizes_in_standard_time_witness :
  transitions_apart Vienna
  /\ In (wall (at_ 2022 10 30 1 0 None), CET) (tz_transitions Vienna)
  /\ aware week_of_2022_10_24
  /\ Timepoint.m_offset sunday_0230 = Ok (NInt 8790)
  /\ in_fold (before_transition Vienna (wall (at_ 2022 10 30 1 0 None))) CET
       (wall (at_ 2022 10 30 1 0 None))
       (naive_wall sunday_0230 week_of_2022_10_24 (int_value (NInt 8790)))
  /\ exists d,
      Timepoint.get_datetime sunday_0230 week_of_2022_10_24 true = Ok d
      /\ instant d
         = naive_wall sunday_0230 week_of_2022_10_24 (int_value (NInt 8790))
           - p_utcoffset
               (fold_choice
                  (before_transition Vienna (wall (at_ 2022 10 30 1 0 None)))
                  CET).
Proof.
  assert (Ha : aware week_of_2022_10_24) by (unfold aware; discriminate).
  assert (Hin : In (wall (at_ 2022 10 30 1 0 None), CET)
                   (tz_transitions Vienna)).
  { cbn [Vienna tz_transitions]. do 3 right. left. reflexivity. }
  split; [exact Vienna_apart|].
  split; [exact Hin|].
  split; [exact Ha|].
  split; [reflexivity|].
  split; [exact sunday_0230_in_fold|].
  destruct (get_datetime_localizes_in_standard_time Vienna
              (wall (at_ 2022 10 30 1 0 None)) CET CET sunday_0230
              week_of_2022_10_24 true (NInt 8790)
              Vienna_apart Hin eq_refl Ha eq_refl
              (or_introl sunday_0230_in_fold))
    as [d [Hd [Hfold _]]].
  exists d. split; [exact Hd|].
  exact (proj1 (proj2 (proj2 (proj2 (Hfold sunday_0230_in_fold))))).
Defined.

(** C3, counterexample.  Sunday 2022-10-30 02:30 occurs twice in Vienna,
    at 00:30 UTC (summer time) and at 01:30 UTC (standard time).
    [get_datetime] returns the second: the later instant, not the
    earlier. *)
Lemma get_datetime_fold_returns_later_instant :
  exists d,
    Timepoint.get_datetime sunday_0230 week_of_2022_10_24 true = Ok d
    /\ wall d = wall (at_ 2022 10 30 2 30 None)
    /\ wall (fromutc Vienna (instant (at_ 2022 10 30 0 30 (Some utc))))
       = wall d
    /\ wall (fromutc Vienna (instant (at_ 2022 10 30 1 30 (Some utc))))
       = wall d
    /\ instant d = instant (at_ 2022 10 30 1 30 (Some utc))
    /\ instant (at_ 2022 10 30 0 30 (Some utc)) < instant d.
Proof.
  eexists. split; [vm_compute; reflexivity|].
  repeat split; vm_compute; reflexivity.
Qed.

(** In the week of 2022-03-21 the same timepoint names a time that does
    not exist in Vienna.  [get_datetime] returns 02:30 with the winter
    offset, which is 01:30 UTC; the zone reads that instant as 03:30. *)
Lemma get_datetime_gap_keeps_wall_clock :
  exists d,
    Timepoint.get_datetime sunday_0230 week_of_2022_03_21 true = Ok d
    /\ wall d = wall (at_ 2022 3 27 2 30 None)
    /\ instant d = instant (at_ 2022 3 27 1 30 (Some utc))
    /\ wall (fromutc Vienna (instant d)) = wall (at_ 2022 3 27 3 30 None).
Proof.
  eexists. split; [vm_compute; reflexivity|].
  repeat split; vm_compute; reflexivity.
Qed.

(** Where the tables name the winter the daylight period, the fold at its
    start is resolved the other way: Sunday 2022-10-30 01:30 occurs twice
    in Dublin, at 00:30 UTC (standard time, the summer's) and at 01:30
    UTC, and [get_datetime] returns the first. *)
Lemma get_datetime_fold_in_winter_daylight_zone :
  exists d,
    Timepoint.get_datetime sunday_0130 week_of_2022_10_24 true = Ok d
    /\ wall d = wall (at_ 2022 10 30 1 30 None)
    /\ wall (fromutc Dublin (instant (at_ 2022 10 30 0 30 (Some utc))))
       = wall d
    /\ wall (fromutc Dublin (instant (at_ 2022 10 30 1 30 (Some utc))))
       = wall d
    /\ instant d = instant (at_ 2022 10 30 0 30 (Some utc)).
Proof.
  eexists. split; [vm_compute; reflexivity|].
  repeat split; vm_compute; reflexivity.
Qed.
(** * Properties of the rest of the object layer *)

(** ** Dictionaries *)

Lemma getitem_setitem_same {V : Type} (m : list (string * V)) (key : string)
  (v : V) :
  getitem (setitem m key v) key = Some v.
Proof.
  induction m as [|[k w] rest IH]; simpl.
  - rewrite String.eqb_refl. reflexivity.
  - destruct (String.eqb k key) eqn:E; simpl; rewrite E; auto.
Qed.

Lemma getitem_setitem_other {V : Type} (m : list (string * V))
  (key key' : string) (v : V) :
  key' <> key -> getitem (setitem m key v) key' = getitem m key'.
Proof.
  intros Hne. induction m as [|[k w] rest IH]; simpl.
  - destruct (String.eqb_spec key key'); [congruence | reflexivity].
  - destruct (String.eqb_spec k key); simpl.
    + subst k. destruct (String.eqb_spec key key'); [congruence | reflexivity].
    + destruct (String.eqb k key'); auto.
Qed.

Lemma setitem_new {V : Type} (m : list (string * V)) (key : string) (v : V) :
  ~ In key (map fst m) -> setitem m key v = m ++ [(key, v)].
Proof.
  induction m as [|[k w] rest IH]; simpl; intros Hn.
  - reflexivity.
  - destruct (String.eqb_spec k key); [contradiction Hn; auto|].
    rewrite IH by tauto. reflexivity.
Qed.

Lemma setitem_keys_old {V : Type} (m : list (string * V)) (key : string)
  (v : V) :
  In key (map fst m) -> map fst (setitem m key v) = map fst m.
Proof.
  induction m as [|[k w] rest IH]; simpl; intros Hin.
  - contradiction.
  - destruct (String.eqb_spec k key); simpl; [reflexivity|].
    rewrite IH; [reflexivity|]. destruct Hin; [contradiction | assumption].
Qed.

Lemma setitem_NoDup {V : Type} (m : list (string * V)) (key : string)
  (v : V) :
  NoDup (map fst m) -> NoDup (map fst (setitem m key v)).
Proof.
  intros Hm. destruct (in_dec string_dec key (map fst m)) as [Hin | Hn].
  - rewrite setitem_keys_old by exact Hin. exact Hm.
  - rewrite setitem_new by exact Hn. rewrite map_app. simpl.
    apply NoDup_app_remove_l with (l := []). simpl.
    rewrite <- (rev_involutive (map fst m ++ [key])).
    apply NoDup_rev. rewrite rev_app_distr. simpl.
    constructor; [rewrite <- in_rev; exact Hn | apply NoDup_rev; exact Hm].
Qed.

Lemma setitem_Forall {V : Type} (P : V -> Prop) (m : list (string * V))
  (key : string) (v : V) :
  Forall (fun kv => P (snd kv)) m -> P v ->
  Forall (fun kv => P (snd kv)) (setitem m key v).
Proof.
  intros Hm Hv. induction Hm as [|[k w] rest Hk Hrest IH]; simpl.
  - constructor; [exact Hv | constructor].
  - destruct (String.eqb k key); constructor; simpl; auto.
Qed.

(** ** Construction *)

Lemma SequenceObject_init_items (assign : pyobj -> result Node)
  (sequence : list pyobj) :
  forall acc l,
    SequenceObject_init assign sequence acc = Ok l ->
    exists vs,
      l = acc ++ vs /\ Forall2 (fun item v => assign item = Ok v) sequence vs.
Proof.
  induction sequence as [|item rest IH]; intros acc l; simpl.
  - intros H; inversion H; subst. exists []. rewrite app_nil_r.
    split; [reflexivity | constructor].
  - intros H. apply bind_ok in H. destruct H as [v [Hv H]].
    destruct (IH _ _ H) as [vs [-> Hvs]].
    exists (v :: vs). rewrite <- app_assoc. split; [reflexivity|].
    constructor; assumption.
Qed.

(** X1.  A [SequenceObject] holds one value per item of its argument, in
    the argument's order, each the value [_assign] gives that item. *)
Theorem SequenceObject_keeps_items (sequence : list pyobj) (l : list Node) :
  SequenceObject sequence = Ok l ->
  List.length l = List.length sequence
  /\ Forall2 (fun item v => _assign item = Ok v) sequence l.
Proof.
  unfold SequenceObject. intros H.
  apply SequenceObject_init_items in H. destruct H as [vs [-> Hvs]].
  simpl. split; [|exact Hvs].
  symmetry. eapply Forall2_length. exact Hvs.
Qed.

Lemma SequenceObject_keeps_items_witness :
  SequenceObject [PyInt 1; PyBool true; PyList [PyNone]]
  = Ok [NInt 1; NBool true; NSeq [NNone]]
  /\ List.length [NInt 1; NBool true; NSeq [NNone]]
     = List.length [PyInt 1; PyBool true; PyList [PyNone]].
Proof.
  split; [reflexivity|].
  exact (proj1 (SequenceObject_keeps_items
                  [PyInt 1; PyBool true; PyList [PyNone]]
                  [NInt 1; NBool true; NSeq [NNone]] eq_refl)).
Defined.

Lemma MappingObject_init_lookup (assign : pyobj -> result Node)
  (items : list (string * pyobj)) :
  NoDup (map fst items) ->
  forall acc m,
    MappingObject_init assign items acc = Ok m ->
    forall key,
      (forall value, In (key, value) items ->
                     exists v, assign value = Ok v /\ getitem m key = Some v)
      /\ (~ In key (map fst items) -> getitem m key = getitem acc key).
Proof.
  induction items as [|[k x] rest IH]; intros Hnd acc m; simpl.
  - intros H; inversion H; subst. intros key. split; [contradiction | auto].
  - intros H. apply bind_ok in H. destruct H as [v [Hv H]].
    inversion Hnd as [|? ? Hk Hrest]; subst.
    intros key. destruct (IH Hrest _ _ H key) as [Hin Hout].
    destruct (IH Hrest _ _ H k) as [_ Hk'].
    split.
    + intros value [Heq | Hv'].
      * inversion Heq; subst. exists v. split; [exact Hv|].
        rewrite (Hk' Hk). apply getitem_setitem_same.
      * apply Hin. exact Hv'.
    + intros Hn. rewrite Hout by tauto.
      apply getitem_setitem_other. intros E. apply Hn. auto.
Qed.

(** X2.  Lookup in a [MappingObject] built from a mapping: every key of
    the mapping leads to the value [_assign] gives its value, and no other
    key is present. *)
Theorem MappingObject_lookup (mapping : list (string * pyobj))
  (m : list (string * Node)) (key : string) :
  NoDup (map fst mapping) ->
  MappingObject mapping = Ok m ->
  match getitem mapping key with
  | Some value => exists v, _assign value = Ok v /\ getitem m key = Some v
  | None => getitem m key = None
  end.
Proof.
  unfold MappingObject. intros Hnd H.
  destruct (MappingObject_init_lookup _ _ Hnd _ _ H key) as [Hin Hout].
  destruct (getitem mapping key) as [value|] eqn:E.
  - apply Hin. clear -E.
    induction mapping as [|[k w] rest IH]; simpl in *; [discriminate|].
    destruct (String.eqb_spec k key).
    + inversion E; subst. left; reflexivity.
    + right. apply IH. exact E.
  - apply Hout. clear -E. intros Hk.
    induction mapping as [|[k w] rest IH]; simpl in *; [contradiction|].
    destruct (String.eqb_spec k key); [discriminate|].
    destruct Hk; [contradiction | auto].
Qed.

Lemma MappingObject_lookup_witness :
  NoDup (map fst [("id", PyInt 7); ("name", PyStr "Comfort")])
  /\ MappingObject [("id", PyInt 7); ("name", PyStr "Comfort")]
     = Ok [("id", NInt 7); ("name", NStr "Comfort")]
  /\ exists v, _assign (PyStr "Comfort") = Ok v
             /\ getitem [("id", NInt 7); ("name", NStr "Comfort")] "name"
                = Some v.
Proof.
  assert (Hnd : NoDup (map fst [("id", PyInt 7); ("name", PyStr "Comfort")])).
  { simpl. constructor; [simpl; intros [H | []]; discriminate|].
    constructor; [intros [] | constructor]. }
  split; [exact Hnd | split; [reflexivity|]].
  exact (MappingObject_lookup [("id", PyInt 7); ("name", PyStr "Comfort")]
           [("id", NInt 7); ("name", NStr "Comfort")] "name" Hnd eq_refl).
Defined.

Lemma SequenceObject_init_Forall (assign : pyobj -> result Node)
  (P : Node -> Prop) (sequence : list pyobj) :
  Forall (fun item => forall v, assign item = Ok v -> P v) sequence ->
  forall acc l,
    Forall P acc -> SequenceObject_init assign sequence acc = Ok l ->
    Forall P l.
Proof.
  induction 1 as [|item rest Hitem _ IH]; intros acc l Hacc; simpl.
  - intros H; inversion H; subst. exact Hacc.
  - intros H. apply bind_ok in H. destruct H as [v [Hv H]].
    apply (IH (acc ++ [v]) l); [|exact H].
    apply Forall_app. split; [exact Hacc|].
    constructor; [apply Hitem; exact Hv | constructor].
Qed.

Lemma MappingObject_init_invariant (assign : pyobj -> result Node)
  (P : Node -> Prop) (items : list (string * pyobj)) :
  Forall (fun kv => forall v, assign (snd kv) = Ok v -> P v) items ->
  forall acc m,
    NoDup (map fst acc) -> Forall (fun kv => P (snd kv)) acc ->
    MappingObject_init assign items acc = Ok m ->
    NoDup (map fst m) /\ Forall (fun kv => P (snd kv)) m.
Proof.
  induction 1 as [|[k x] rest Hitem _ IH]; intros acc m Hnd Hacc; simpl.
  - intros H; inversion H; subst. auto.
  - intros H. apply bind_ok in H. destruct H as [v [Hv H]].
    apply (IH _ _ (setitem_NoDup acc k v Hnd)
             (setitem_Forall P acc k v Hacc (Hitem v Hv)) H).
Qed.

(** Whatever the constructors build is well formed. *)
Lemma _assign_well_formed (item : pyobj) (v : Node) :
  _assign item = Ok v -> well_formed v.
Proof.
  revert v. induction item using pyobj_nested_ind; intros v; simpl;
    try (intros E; inversion E; constructor).
  - intros E. apply bind_ok in E. destruct E as [s [Hs E]].
    inversion E; subst. constructor.
    eapply SequenceObject_init_Forall; [exact H | constructor | exact Hs].
  - intros E. apply bind_ok in E. destruct E as [s [Hs E]].
    inversion E; subst.
    destruct (MappingObject_init_invariant _assign well_formed d H [] s)
      as [Hnd Hall]; try (constructor; fail); try exact Hs.
    constructor; assumption.
Qed.

Lemma SequenceObject_init_again (assign : pyobj -> result Node)
  (l : list Node) :
  Forall (fun v => assign (as_obj v) = Ok v) l ->
  forall acc, SequenceObject_init assign (map as_obj l) acc = Ok (acc ++ l).
Proof.
  induction 1 as [|v rest Hv _ IH]; intros acc; simpl.
  - rewrite app_nil_r. reflexivity.
  - rewrite Hv. simpl. rewrite IH, <- app_assoc. reflexivity.
Qed.

Lemma MappingObject_init_again (assign : pyobj -> result Node)
  (m : list (string * Node)) :
  Forall (fun kv => assign (as_obj (snd kv)) = Ok (snd kv)) m ->
  forall acc,
    NoDup (map fst (acc ++ m)) ->
    MappingObject_init assign (map (fun kv => (fst kv, as_obj (snd kv))) m)
      acc
    = Ok (acc ++ m).
Proof.
  induction 1 as [|[k v] rest Hv _ IH]; intros acc Hnd; simpl.
  - rewrite app_nil_r. reflexivity.
  - simpl in Hv. rewrite Hv. simpl.
    assert (Hk : ~ In k (map fst acc)).
    { rewrite map_app in Hnd. simpl in Hnd.
      apply NoDup_remove_2 in Hnd. intros Hin. apply Hnd.
      apply in_or_app. left. exact Hin. }
    rewrite (setitem_new acc k v Hk).
    rewrite IH; rewrite <- app_assoc; [reflexivity | exact Hnd].
Qed.

(** Wrapping a well-formed stored value again gives it back. *)
Lemma _assign_as_obj (v : Node) : well_formed v -> _assign (as_obj v) = Ok v.
Proof.
  induction v using Node_nested_ind; intros Hwf; try reflexivity.
  - inversion Hwf as [| | | | |l' Hl|]; subst.
    change (_assign (as_obj (NSeq l)))
      with (s <- SequenceObject_init _assign (map as_obj l) [] ;;
            Ok (NSeq s)).
    rewrite (SequenceObject_init_again _assign l).
    + reflexivity.
    + rewrite Forall_forall in *. intros x Hx. apply H; auto.
  - inversion Hwf as [| | | | | |m' Hnd Hm]; subst.
    change (_assign (as_obj (NMap m)))
      with (s <- MappingObject_init _assign
                   (map (fun kv => (fst kv, as_obj (snd kv))) m) [] ;;
            Ok (NMap s)).
    rewrite (MappingObject_init_again _assign m).
    + reflexivity.
    + rewrite Forall_forall in *. intros x Hx. apply H; auto.
    + exact Hnd.
Qed.

(** X3.  Wrapping is idempotent: a value the constructors have built,
    passed to a constructor again (as [HomeData(item)] does for the items
    of a [HomesData]), gives an equal value. *)
Theorem _assign_idempotent (item : pyobj) (v : Node) :
  _assign item = Ok v -> _assign (as_obj v) = Ok v.
Proof. intros H. apply _assign_as_obj. eapply _assign_well_formed. exact H. Qed.

Lemma _assign_idempotent_witness :
  _assign (PyDict [("id", PyInt 7); ("zones", PyList [PyDict []])])
  = Ok (NMap [("id", NInt 7); ("zones", NSeq [NMap []])])
  /\ _assign (as_obj (NMap [("id", NInt 7); ("zones", NSeq [NMap []])]))
     = Ok (NMap [("id", NInt 7); ("zones", NSeq [NMap []])]).
Proof.
  split; [reflexivity|].
  exact (_assign_idempotent
           (PyDict [("id", PyInt 7); ("zones", PyList [PyDict []])])
           (NMap [("id", NInt 7); ("zones", NSeq [NMap []])]) eq_refl).
Defined.

Lemma wrap_mapping_well_formed (m : list (string * Node)) :
  well_formed (NMap m) -> wrap_mapping (NMap m) = Ok m.
Proof.
  intros Hwf. inversion Hwf as [| | | | | |m' Hnd Hm]; subst.
  unfold wrap_mapping. rewrite (MappingObject_init_again _assign m).
  - reflexivity.
  - rewrite Forall_forall in *. intros x Hx. apply _assign_as_obj. auto.
  - exact Hnd.
Qed.

(** ** Identities *)

Lemma fromhex_hex_byte (b : Byte.byte) (rest : string) :
  fromhex (String (hex_digit (Byte.to_N b / 16))
             (String (hex_digit (Byte.to_N b mod 16)) rest))
  = match fromhex rest with
    | Some bs => Some (b :: bs)
    | None => None
    end.
Proof. destruct b; reflexivity. Qed.

Lemma fromhex_hex_upper_byte (b : Byte.byte) (rest : string) :
  fromhex (String (hex_digit_upper (Byte.to_N b / 16))
             (String (hex_digit_upper (Byte.to_N b mod 16)) rest))
  = match fromhex rest with
    | Some bs => Some (b :: bs)
    | None => None
    end.
Proof. destruct b; reflexivity. Qed.

Lemma fromhex_hex (bs : list Byte.byte) : fromhex (hex bs) = Some bs.
Proof.
  induction bs as [|b rest IH]; [reflexivity|].
  cbn [hex]. rewrite fromhex_hex_byte, IH. reflexivity.
Qed.

Lemma fromhex_hex_upper (bs : list Byte.byte) :
  fromhex (hex_upper bs) = Some bs.
Proof.
  induction bs as [|b rest IH]; [reflexivity|].
  cbn [hex_upper]. rewrite fromhex_hex_upper_byte, IH. reflexivity.
Qed.

Lemma remove_colons_hex_byte (b : Byte.byte) (rest : string) :
  remove_colons (String (hex_digit (Byte.to_N b / 16))
                   (String (hex_digit (Byte.to_N b mod 16)) rest))
  = String (hex_digit (Byte.to_N b / 16))
      (String (hex_digit (Byte.to_N b mod 16)) (remove_colons rest)).
Proof. destruct b; reflexivity. Qed.

Lemma remove_colons_hex (bs : list Byte.byte) :
  remove_colons (hex bs) = hex bs.
Proof.
  induction bs as [|b rest IH]; [reflexivity|].
  cbn [hex]. rewrite remove_colons_hex_byte, IH. reflexivity.
Qed.

Lemma remove_colons_mac (bs : list Byte.byte) :
  remove_colons (mac bs) = hex bs.
Proof.
  induction bs as [|b rest IH]; [reflexivity|].
  destruct rest as [|b' rest'].
  - apply (remove_colons_hex [b]).
  - change (mac (b :: b' :: rest'))
      with (String (hex_digit (Byte.to_N b / 16))
              (String (hex_digit (Byte.to_N b mod 16))
                 (String colon (mac (b' :: rest'))))).
    rewrite remove_colons_hex_byte.
    change (remove_colons (String colon (mac (b' :: rest'))))
      with (remove_colons (mac (b' :: rest'))).
    rewrite IH. reflexivity.
Qed.

(** X4.  The identity of a home is read back from its hexadecimal
    writing, in small or in capital digits, for a byte string of any
    length: no length is checked. *)
Theorem HomeObject_id_of_hex (self : list (string * Node))
  (bs : list Byte.byte) :
  getitem self "id" = Some (NStr (hex bs))
  \/ getitem self "id" = Some (NStr (hex_upper bs)) ->
  HomeObject.id self = Ok bs.
Proof.
  unfold HomeObject.id, _get_str, _get_type.
  intros [-> | ->]; simpl; [rewrite fromhex_hex | rewrite fromhex_hex_upper];
    reflexivity.
Qed.

Lemma HomeObject_id_of_hex_witness :
  (getitem [("id", NStr "60478d1baf36ee032f3e0070")] "id"
   = Some (NStr (hex [Byte.x60; Byte.x47; Byte.x8d; Byte.x1b; Byte.xaf;
                      Byte.x36; Byte.xee; Byte.x03; Byte.x2f; Byte.x3e;
                      Byte.x00; Byte.x70]))
   \/ getitem [("id", NStr "60478d1baf36ee032f3e0070")] "id"
      = Some (NStr (hex_upper [Byte.x60; Byte.x47; Byte.x8d; Byte.x1b;
                               Byte.xaf; Byte.x36; Byte.xee; Byte.x03;
                               Byte.x2f; Byte.x3e; Byte.x00; Byte.x70])))
  /\ HomeObject.id [("id", NStr "60478d1baf36ee032f3e0070")]
     = Ok [Byte.x60; Byte.x47; Byte.x8d; Byte.x1b; Byte.xaf; Byte.x36;
           Byte.xee; Byte.x03; Byte.x2f; Byte.x3e; Byte.x00; Byte.x70].
Proof.
  assert (H : getitem [("id", NStr "60478d1baf36ee032f3e0070")] "id"
              = Some (NStr (hex [Byte.x60; Byte.x47; Byte.x8d; Byte.x1b;
                                 Byte.xaf; Byte.x36; Byte.xee; Byte.x03;
                                 Byte.x2f; Byte.x3e; Byte.x00; Byte.x70])))
    by reflexivity.
  split; [left; exact H|].
  exact (HomeObject_id_of_hex _ _ (or_introl H)).
Defined.

(** X5.  The identity of a module is read back from its MAC-style
    writing, with the colons or without them. *)
Theorem ModuleObject_id_of_mac (self : list (string * Node))
  (bs : list Byte.byte) :
  getitem self "id" = Some (NStr (mac bs))
  \/ getitem self "id" = Some (NStr (hex bs)) ->
  ModuleObject.id self = Ok bs.
Proof.
  unfold ModuleObject.id, _get_str, _get_type.
  intros [-> | ->]; simpl;
    [rewrite remove_colons_mac | rewrite remove_colons_hex];
    rewrite fromhex_hex; reflexivity.
Qed.

Lemma ModuleObject_id_of_mac_witness :
  (getitem [("id", NStr "00:03:50:b7:71:be")] "id"
   = Some (NStr (mac [Byte.x00; Byte.x03; Byte.x50; Byte.xb7; Byte.x71;
                      Byte.xbe]))
   \/ getitem [("id", NStr "00:03:50:b7:71:be")] "id"
      = Some (NStr (hex [Byte.x00; Byte.x03; Byte.x50; Byte.xb7; Byte.x71;
                         Byte.xbe])))
  /\ ModuleObject.id [("id", NStr "00:03:50:b7:71:be")]
     = Ok [Byte.x00; Byte.x03; Byte.x50; Byte.xb7; Byte.x71; Byte.xbe].
Proof.
  assert (H : getitem [("id", NStr "00:03:50:b7:71:be")] "id"
              = Some (NStr (mac [Byte.x00; Byte.x03; Byte.x50; Byte.xb7;
                                 Byte.x71; Byte.xbe])))
    by reflexivity.
  split; [left; exact H|].
  exact (ModuleObject_id_of_mac _ _ (or_introl H)).
Defined.

(** X6.  What [HomeObject.id] raises: [ObjectAttributeError] when the key
    is absent, [ObjectTypeError] when the value is not a string,
    [ObjectIdError] when the string is not hexadecimal; the [ValueError]
    of [bytes.fromhex] never comes out. *)
Theorem HomeObject_id_errors (self : list (string * Node)) (e : exn) :
  HomeObject.id self = Raise e <->
  (getitem self "id" = None /\ e = ObjectAttributeError "id")
  \/ (exists value, getitem self "id" = Some value
                    /\ isinstance value t_str = false
                    /\ e = ObjectTypeError "id" value)
  \/ (exists s, getitem self "id" = Some (NStr s)
                /\ fromhex s = None /\ e = ObjectIdError).
Proof.
  unfold HomeObject.id, _get_str, _get_type.
  destruct (getitem self "id") as [value|].
  - destruct value; simpl;
      try (split;
           [intros H; inversion H; right; left; eexists; repeat split
           |intros [[H _] | [[v [H [Hi ->]]] | [s' [H _]]]];
            inversion H; subst; reflexivity]).
    destruct (fromhex s) eqn:Es; split.
    + discriminate.
    + intros [[H _] | [[v [H [Hi _]]] | [s' [H [Hf _]]]]];
        inversion H; subst; [discriminate | congruence].
    + intros H; inversion H. right; right. exists s. auto.
    + intros [[H _] | [[v [H [Hi _]]] | [s' [H [Hf ->]]]]];
        inversion H; subst; [discriminate | reflexivity].
  - simpl. split.
    + intros H; inversion H. left. auto.
    + intros [[_ ->] | [[v [H _]] | [s [H _]]]]; [reflexivity | |];
        discriminate.
Qed.

(** X7.  The [except ValueError] clause of [RoomObject.id] is never
    taken: the property is [_get_int] on "id", and [ObjectIdError] is not
    among its errors. *)
Theorem RoomObject_id_is_get_int (self : list (string * Node)) :
  RoomObject.id self = _get_int self "id"
  /\ RoomObject.id self <> Raise ObjectIdError.
Proof.
  unfold RoomObject.id.
  destruct (_get_int self "id") as [v|e] eqn:E.
  - split; [reflexivity | discriminate].
  - pose proof (_get_type_raise _ _ _ _ E) as Hv.
    destruct e; try discriminate Hv; split; try reflexivity; try discriminate.
    unfold _get_int, _get_type in E.
    destruct (getitem self "id") as [v|];
      [destruct (negb (isinstance v t_int))|]; discriminate.
Qed.

(** ** Lookup by identity *)

Section get_id_properties.
Variables Obj Id Wanted : Type.
Variable wrap : Node -> result Obj.
Variable id_of : Obj -> result Id.
Variable id_eqb : Id -> Wanted -> bool.

Lemma get_id_loop_found (items : list Node) (wanted : Wanted) (obj : Obj) :
  get_id_loop _ _ _ wrap id_of id_eqb items wanted = Ok (Some obj) <->
  exists before item after i,
    items = before ++ item :: after
    /\ Forall (passed wrap id_of id_eqb wanted) before
    /\ wrap item = Ok obj /\ id_of obj = Ok i /\ id_eqb i wanted = true.
Proof.
  split.
  - induction items as [|item rest IH]; simpl; [discriminate|].
    intros H. apply bind_ok in H. destruct H as [o [Ho H]].
    apply bind_ok in H. destruct H as [i [Hi H]].
    destruct (id_eqb i wanted) eqn:E.
    + inversion H; subst. exists [], item, rest, i. simpl. auto.
    + destruct (IH H) as [before [it [after [j [-> [Hb Hrest]]]]]].
      exists (item :: before), it, after, j. simpl.
      split; [reflexivity|]. split; [|exact Hrest].
      constructor; [|exact Hb]. exists o, i. auto.
  - intros [before [item [after [i [-> [Hb [Hw [Hi He]]]]]]]].
    induction Hb as [|x before [o [j [Ho [Hj Hne]]]] _ IH]; simpl.
    + rewrite Hw. simpl. rewrite Hi. simpl. rewrite He. reflexivity.
    + rewrite Ho. simpl. rewrite Hj. simpl. rewrite Hne. exact IH.
Qed.

Lemma get_id_loop_none (items : list Node) (wanted : Wanted) :
  get_id_loop _ _ _ wrap id_of id_eqb items wanted = Ok None <->
  Forall (passed wrap id_of id_eqb wanted) items.
Proof.
  split.
  - induction items as [|item rest IH]; simpl; [constructor|].
    intros H. apply bind_ok in H. destruct H as [o [Ho H]].
    apply bind_ok in H. destruct H as [i [Hi H]].
    destruct (id_eqb i wanted) eqn:E; [discriminate|].
    constructor; [exists o, i; auto | apply IH; exact H].
  - induction 1 as [|x rest [o [j [Ho [Hj Hne]]]] _ IH]; simpl.
    + reflexivity.
    + rewrite Ho. simpl. rewrite Hj. simpl. rewrite Hne. exact IH.
Qed.

Lemma get_id_loop_raise (items : list Node) (wanted : Wanted) (e : exn) :
  get_id_loop _ _ _ wrap id_of id_eqb items wanted = Raise e <->
  exists before item after,
    items = before ++ item :: after
    /\ Forall (passed wrap id_of id_eqb wanted) before
    /\ fails wrap id_of item e.
Proof.
  split.
  - induction items as [|item rest IH]; simpl; [discriminate|].
    intros H. apply bind_raise in H. destruct H as [H | [o [Ho H]]].
    { exists [], item, rest. simpl. split; [reflexivity|].
      split; [constructor | left; exact H]. }
    apply bind_raise in H. destruct H as [H | [i [Hi H]]].
    { exists [], item, rest. simpl. split; [reflexivity|].
      split; [constructor | right; exists o; auto]. }
    destruct (id_eqb i wanted) eqn:E; [discriminate|].
    destruct (IH H) as [before [it [after [-> [Hb Hf]]]]].
    exists (item :: before), it, after. simpl.
    split; [reflexivity|]. split; [|exact Hf].
    constructor; [|exact Hb]. exists o, i. auto.
  - intros [before [item [after [-> [Hb Hf]]]]].
    induction Hb as [|x before [o [j [Ho [Hj Hne]]]] _ IH]; simpl.
    + destruct Hf as [Hw | [o [Ho Hi]]].
      * rewrite Hw. reflexivity.
      * rewrite Ho. simpl. rewrite Hi. reflexivity.
    + rewrite Ho. simpl. rewrite Hj. simpl. rewrite Hne. exact IH.
Qed.
End get_id_properties.

Lemma bytes_eqb_eq (a b : list Byte.byte) : bytes_eqb a b = true <-> a = b.
Proof.
  unfold bytes_eqb. destruct (list_eq_dec Byte.byte_eq_dec a b);
    split; auto; discriminate.
Qed.

(** X8.  [HomesData.get_id] returns a home exactly when the collection
    holds an item whose identity is the one asked for and every item
    before it wraps, has a readable identity, and has another identity:
    the home returned is the first match. *)
Theorem HomesData_get_id_first_match (self : list Node)
  (home_id : list Byte.byte) (home : list (string * Node)) :
  HomesData.get_id self home_id = Ok (Some home) <->
  exists before item after,
    self = before ++ item :: after
    /\ Forall (passed wrap_mapping HomeObject.id bytes_eqb home_id) before
    /\ wrap_mapping item = Ok home
    /\ HomeObject.id home = Ok home_id.
Proof.
  unfold HomesData.get_id. rewrite get_id_loop_found. split.
  - intros [before [item [after [i [-> [Hb [Hw [Hi He]]]]]]]].
    apply bytes_eqb_eq in He. subst i. exists before, item, after. auto.
  - intros [before [item [after [-> [Hb [Hw Hi]]]]]].
    exists before, item, after, home_id. repeat split; auto.
    apply bytes_eqb_eq. reflexivity.
Qed.

(** X9.  A lookup stops at the first item it cannot wrap or whose
    identity it cannot read, and raises that item's error, also when a
    later item has the identity asked for. *)
Theorem HomesData_get_id_raises_before_match (before after : list Node)
  (item : Node) (home_id : list Byte.byte) (e : exn) :
  Forall (passed wrap_mapping HomeObject.id bytes_eqb home_id) before ->
  fails wrap_mapping HomeObject.id item e ->
  HomesData.get_id (before ++ item :: after) home_id = Raise e.
Proof.
  intros Hb Hf. unfold HomesData.get_id. apply get_id_loop_raise.
  exists before, item, after. auto.
Qed.

Lemma HomesData_get_id_raises_before_match_witness :
  Forall (passed wrap_mapping HomeObject.id bytes_eqb [Byte.x2a]) []
  /\ fails wrap_mapping HomeObject.id (NMap [("id", NStr "zz")])
       ObjectIdError
  /\ HomesData.get_id ([] ++ NMap [("id", NStr "zz")]
                          :: [NMap [("id", NStr "2a")]]) [Byte.x2a]
     = Raise ObjectIdError.
Proof.
  assert (Hf : fails wrap_mapping HomeObject.id (NMap [("id", NStr "zz")])
                 ObjectIdError).
  { right. exists [("id", NStr "zz")]. split; reflexivity. }
  split; [constructor | split; [exact Hf|]].
  exact (HomesData_get_id_raises_before_match [] [NMap [("id", NStr "2a")]]
           (NMap [("id", NStr "zz")]) [Byte.x2a] ObjectIdError
           (Forall_nil _) Hf).
Defined.

Lemma Zones_get_id_loop (self : list Node) (zone_id : Z) :
  Zones.get_id self zone_id
  = get_id_loop _ _ _ wrap_zone Zone.id
      (fun i wanted => int_value i =? wanted) self zone_id.
Proof.
  induction self as [|item rest IH]; [reflexivity|].
  destruct item; try reflexivity.
  simpl. destruct (Zone.id m); simpl; [|reflexivity].
  destruct (int_value a =? zone_id); [reflexivity | exact IH].
Qed.

(** X10.  [Zones.get_id] returns [None] exactly when every zone has a
    readable integer [id] other than the one asked for; in particular it
    returns [None] on an empty collection and does not raise for an
    unknown id. *)
Theorem Zones_get_id_none (self : list Node) (zone_id : Z) :
  Zones.get_id self zone_id = Ok None <->
  Forall (fun item => exists zone i,
              item = NMap zone /\ Zone.id zone = Ok i
              /\ int_value i <> zone_id) self.
Proof.
  rewrite Zones_get_id_loop, get_id_loop_none.
  split; intros H; rewrite Forall_forall in *; intros item Hin;
    specialize (H item Hin).
  - destruct H as [zone [i [Hw [Hi He]]]].
    destruct item; try discriminate. inversion Hw; subst.
    exists zone, i. apply Z.eqb_neq in He. auto.
  - destruct H as [zone [i [-> [Hi He]]]].
    exists zone, i. apply Z.eqb_neq in He. auto.
Qed.

(** X11.  [Zones.get_id] returns a zone exactly when it is the first
    zone of the collection whose [id] is the integer asked for. *)
Theorem Zones_get_id_first_match (self : list Node) (zone_id : Z)
  (zone : list (string * Node)) :
  Zones.get_id self zone_id = Ok (Some zone) <->
  exists before after i,
    self = before ++ NMap zone :: after
    /\ Forall (passed wrap_zone Zone.id
                 (fun i wanted => int_value i =? wanted) zone_id) before
    /\ Zone.id zone = Ok i /\ int_value i = zone_id.
Proof.
  rewrite Zones_get_id_loop, get_id_loop_found. split.
  - intros [before [item [after [i [-> [Hb [Hw [Hi He]]]]]]]].
    destruct item; try discriminate. inversion Hw; subst.
    exists before, after, i. apply Z.eqb_eq in He. auto.
  - intros [before [after [i [-> [Hb [Hi He]]]]]].
    exists before, (NMap zone), after, i. apply Z.eqb_eq in He.
    repeat split; auto.
Qed.

(** * Properties of the rest of the timetable *)

(** ** One timepoint *)

Lemma get_datetime_home (self : Timepoint.t) (week d : datetime) :
  Timepoint.get_datetime self week true = Ok d ->
  exists m,
    Timepoint.m_offset self = Ok m
    /\ _dt_localize (mk_datetime (naive_wall self week (int_value m)) None)
         (Some (Timepoint._timezone self)) = Ok d.
Proof.
  unfold Timepoint.get_datetime.
  destruct (dt_tzinfo week) as [week_timezone|] eqn:Ew; [|discriminate].
  intros H. apply bind_ok in H. destruct H as [week_start [Hs H]].
  apply bind_ok in H. destruct H as [td [Htd H]].
  apply bind_ok in H. destruct H as [loc [Hloc H]].
  unfold Timepoint.get_timedelta in Htd. apply bind_ok in Htd.
  destruct Htd as [m [Hm Htd]]. inversion Htd; subst td. clear Htd.
  inversion H; subst loc. clear H.
  assert (Haw : aware week) by (unfold aware; rewrite Ew; discriminate).
  pose proof (astimezone_aware week (Timepoint._timezone self) Haw) as Hwk.
  unfold aware in Hwk.
  destruct (dt_tzinfo (astimezone week (Timepoint._timezone self)))
    as [tz|] eqn:Etz; [|contradiction Hwk; reflexivity].
  apply _dt_localize_ok in Hs; [|reflexivity]. destruct Hs as [Hsw _].
  assert (Hdate : date week_start = monday_of self week).
  { unfold date. rewrite Hsw. unfold monday_of.
    apply (combine_date _ 0). rewrite us_per_day_value. lia. }
  rewrite Hdate, timedelta_minutes_days, timedelta_minutes_time in Hloc.
  exists m. split; [exact Hm | exact Hloc].
Qed.

(** X12.  [home_timezone] only chooses the zone the result is shown in:
    when [get_datetime] returns for one value of the flag it returns for
    the other, at the same instant, and with a fixed-offset [week] the
    result for [False] carries the zone of [week]. *)
Theorem get_datetime_flag_keeps_instant (self : Timepoint.t)
  (week d : datetime) (home_timezone : bool) :
  Timepoint.get_datetime self week home_timezone = Ok d ->
  exists d',
    Timepoint.get_datetime self week (negb home_timezone) = Ok d'
    /\ instant d' = instant d
    /\ (forall offset,
          dt_tzinfo week = Some (FixedOffset offset) ->
          dt_tzinfo (if home_timezone then d' else d)
          = Some (FixedOffset offset)).
Proof.
  unfold Timepoint.get_datetime.
  destruct (dt_tzinfo week) as [week_timezone|] eqn:Ew; [|discriminate].
  intros H. apply bind_ok in H. destruct H as [week_start [Hs H]].
  apply bind_ok in H. destruct H as [td [Htd H]].
  apply bind_ok in H. destruct H as [loc [Hloc H]].
  rewrite Hs. cbn [bind]. rewrite Htd. cbn [bind]. rewrite Hloc. cbn [bind].
  pose proof Hloc as Hal.
  apply _dt_localize_ok in Hal; [|reflexivity]. destruct Hal as [_ Hal].
  eexists. split; [reflexivity|].
  assert (Hfix : forall offset,
             week_timezone = FixedOffset offset ->
             dt_tzinfo (astimezone loc week_timezone)
             = Some (FixedOffset offset)).
  { intros offset ->. unfold astimezone. unfold aware in Hal.
    destruct (dt_tzinfo loc) as [mytz|] eqn:El;
      [|contradiction Hal; reflexivity].
    destruct (tzinfo_is (FixedOffset offset) mytz) eqn:Eis;
      [|reflexivity].
    apply tzinfo_is_eq in Eis. subst mytz. exact El. }
  inversion H; subst d. destruct home_timezone; simpl.
  - split; [apply astimezone_instant; exact Hal|].
    intros offset E. inversion E; subst. apply Hfix. reflexivity.
  - split; [symmetry; apply astimezone_instant; exact Hal|].
    intros offset E. inversion E; subst. apply Hfix. reflexivity.
Qed.

(** X13.  Any two references in the same week of the home zone give the
    same instant. *)
Theorem get_datetime_same_week (self : Timepoint.t) (w1 w2 d1 d2 : datetime)
  (h1 h2 : bool) :
  monday_of self w1 = monday_of self w2 ->
  Timepoint.get_datetime self w1 h1 = Ok d1 ->
  Timepoint.get_datetime self w2 h2 = Ok d2 ->
  instant d1 = instant d2.
Proof.
  intros Hm H1 H2.
  apply get_datetime_steps in H1. destruct H1 as [m1 [loc1 [Hm1 [Hl1 ->]]]].
  apply get_datetime_steps in H2. destruct H2 as [m2 [loc2 [Hm2 [Hl2 ->]]]].
  rewrite Hm1 in Hm2. inversion Hm2; subst m2.
  rewrite Hm in Hl1. rewrite Hl1 in Hl2. inversion Hl2. reflexivity.
Qed.



Lemma get_datetime_flag_keeps_instant_witness :
  exists d,
    Timepoint.get_datetime sunday_0230 week_of_2022_10_24 true = Ok d
    /\ exists d',
        Timepoint.get_datetime sunday_0230 week_of_2022_10_24 (negb true)
        = Ok d'
        /\ instant d' = instant d.
Proof.
  eexists. split; [vm_compute; reflexivity|].
  destruct (get_datetime_flag_keeps_instant sunday_0230 week_of_2022_10_24
              _ true ltac:(vm_compute; reflexivity)) as [d' [Hd' [Hi _]]].
  exists d'. split; [exact Hd' | exact Hi].
Defined.

Lemma get_datetime_same_week_witness :
  monday_of sunday_0230 week_of_2022_10_24
  = monday_of sunday_0230 (at_ 2022 10 30 21 0 (Some utc))
  /\ exists d1 d2,
      Timepoint.get_datetime sunday_0230 week_of_2022_10_24 true = Ok d1
      /\ Timepoint.get_datetime sunday_0230
           (at_ 2022 10 30 21 0 (Some utc)) false = Ok d2
      /\ instant d1 = instant d2.
Proof.
  assert (Hm : monday_of sunday_0230 week_of_2022_10_24
               = monday_of sunday_0230 (at_ 2022 10 30 21 0 (Some utc)))
    by (vm_compute; reflexivity).
  split; [exact Hm|]. do 2 eexists.
  split; [vm_compute; reflexivity|]. split; [vm_compute; reflexivity|].
  apply (get_datetime_same_week sunday_0230 week_of_2022_10_24
           (at_ 2022 10 30 21 0 (Some utc)) _ _ true false Hm);
    vm_compute; reflexivity.
Defined.

(** X15.  With an offset inside the week ([0 <= m < 10080]) the result,
    read in the home zone, lies in the home week of the reference: from
    Monday 00:00 of that week up to, not including, the next Monday 00:00;
    and the reference's own home date lies in the same seven days. *)
Theorem get_datetime_within_home_week (self : Timepoint.t)
  (week d : datetime) (m : Node) :
  Timepoint.m_offset self = Ok m ->
  0 <= int_value m < 10080 ->
  Timepoint.get_datetime self week true = Ok d ->
  monday_of self week * us_per_day <= wall d
  /\ wall d < (monday_of self week + 7) * us_per_day
  /\ date d = monday_of self week + int_value m / 1440
  /\ monday_of self week
     <= date (astimezone week (Timepoint._timezone self))
     < monday_of self week + 7
  /\ (monday_of self week + 3) mod 7 = 0.
Proof.
  intros Hm Hrange H. apply get_datetime_home in H.
  destruct H as [m' [Hm' Hloc]]. rewrite Hm in Hm'. inversion Hm'; subst m'.
  apply _dt_localize_ok in Hloc; [|reflexivity]. destruct Hloc as [Hw _].
  simpl in Hw. unfold naive_wall in Hw.
  pose proof (Z.mod_pos_bound (int_value m) 1440 ltac:(lia)) as Hmod.
  assert (Hdiv : 0 <= int_value m / 1440 < 7).
  { split; [apply Z.div_pos; lia|].
    apply Z.div_lt_upper_bound; lia. }
  assert (Hmin : us_per_minute = 60000000) by reflexivity.
  pose proof us_per_day_value as Hday.
  assert (Htime : 0 <= int_value m mod 1440 * us_per_minute < us_per_day)
    by lia.
  repeat split; try lia.
  - unfold date. rewrite Hw.
    rewrite Z.add_comm, Z.div_add by lia.
    rewrite Z.div_small by exact Htime. lia.
  - unfold monday_of, weekday.
    pose proof (Z.mod_pos_bound
                  (date (astimezone week (Timepoint._timezone self)) + 3) 7
                  ltac:(lia)). lia.
  - unfold monday_of, weekday.
    pose proof (Z.mod_pos_bound
                  (date (astimezone week (Timepoint._timezone self)) + 3) 7
                  ltac:(lia)). lia.
  - unfold monday_of, weekday.
    set (x := date (astimezone week (Timepoint._timezone self))).
    replace (x + - ((x + 3) mod 7) + 3) with (x + 3 - (x + 3) mod 7) by lia.
    pose proof (Z.div_mod (x + 3) 7 ltac:(lia)) as Hdm.
    replace (x + 3 - (x + 3) mod 7) with (((x + 3) / 7) * 7) by lia.
    apply Z.mod_mul. lia.
Qed.

Lemma get_datetime_within_home_week_witness :
  Timepoint.m_offset sunday_0230 = Ok (NInt 8790)
  /\ 0 <= int_value (NInt 8790) < 10080
  /\ exists d,
      Timepoint.get_datetime sunday_0230 week_of_2022_03_21 true = Ok d
      /\ monday_of sunday_0230 week_of_2022_03_21 * us_per_day <= wall d
      /\ wall d < (monday_of sunday_0230 week_of_2022_03_21 + 7) * us_per_day.
Proof.
  assert (Hr : 0 <= int_value (NInt 8790) < 10080) by (simpl; lia).
  split; [reflexivity | split; [exact Hr|]].
  eexists. split; [vm_compute; reflexivity|].
  destruct (get_datetime_within_home_week sunday_0230 week_of_2022_03_21 _
              (NInt 8790) eq_refl Hr ltac:(vm_compute; reflexivity))
    as [H1 [H2 _]].
  split; [exact H1 | exact H2].
Defined.

(** ** Adding days *)

(** X16.  [_dt_add_days] moves the wall clock by whole days and keeps the
    time of day; a naive datetime stays naive; with a fixed offset it
    always returns, in the same zone, exactly [days] times 24 hours
    later. *)
Theorem _dt_add_days_wall (dt r : datetime) (n : Z) :
  _dt_add_days dt n = Ok r ->
  wall r = wall dt + n * us_per_day
  /\ time_of r = time_of dt
  /\ (dt_tzinfo dt = None -> dt_tzinfo r = None)
  /\ (forall offset,
        dt_tzinfo dt = Some (FixedOffset offset) ->
        dt_tzinfo r = Some (FixedOffset offset)
        /\ instant r = instant dt + n * us_per_day).
Proof.
  unfold _dt_add_days. intros H.
  assert (Hw : wall r = wall dt + n * us_per_day).
  { assert (Hc : wall (combine (date dt + n) (time_of dt))
                 = wall dt + n * us_per_day).
    { unfold combine, date, time_of. simpl.
      pose proof (Z.div_mod (wall dt) us_per_day) as Hdm.
      pose proof us_per_day_value as Hday. lia. }
    destruct (dt_tzinfo dt) as [tz|].
    - apply _dt_localize_ok in H; [|reflexivity]. destruct H as [H _].
      rewrite H. exact Hc.
    - simpl in H. inversion H; subst. exact Hc. }
  split; [exact Hw|]. split.
  - unfold time_of. rewrite Hw. apply Z.mod_add.
    rewrite us_per_day_value. lia.
  - split.
    + intros E. rewrite E in H. simpl in H. inversion H; reflexivity.
    + intros offset E. rewrite E in H. simpl in H. inversion H; subst.
      simpl. split; [reflexivity|].
      unfold instant. rewrite E. simpl.
      unfold date, time_of.
      pose proof (Z.div_mod (wall dt) us_per_day) as Hdm.
      pose proof us_per_day_value as Hday. lia.
Qed.

Lemma _dt_add_days_wall_witness :
  exists r,
    _dt_add_days (at_ 2022 3 26 2 30 (Some (timezone Vienna))) 1 = Ok r
    /\ wall r
       = wall (at_ 2022 3 26 2 30 (Some (timezone Vienna))) + 1 * us_per_day.
Proof.
  eexists. split; [vm_compute; reflexivity|].
  exact (proj1 (_dt_add_days_wall
                  (at_ 2022 3 26 2 30 (Some (timezone Vienna))) _ 1
                  ltac:(vm_compute; reflexivity))).
Defined.

(** ** A timepoint by its index *)

Lemma py_index_none {A : Type} (l : list A) (i : Z) :
  py_index l i = None
  <-> (i < - Z.of_nat (List.length l) \/ Z.of_nat (List.length l) <= i).
Proof.
  unfold py_index.
  set (n := Z.of_nat (List.length l)).
  assert (Hn : 0 <= n) by (subst n; lia).
  destruct (Z.ltb_spec i 0) as [Hneg | Hpos].
  - destruct (Z.ltb_spec (i + n) 0) as [Hlow | Hlow]; simpl.
    + split; [intros _; lia | reflexivity].
    + destruct (Z.leb_spec n (i + n)) as [Hhigh | Hhigh]; [lia|].
      split; [|lia]. intros H. apply nth_error_None in H.
      subst n. lia.
  - destruct (Z.ltb_spec i 0) as [Hlow | Hlow]; [lia|]. simpl.
    destruct (Z.leb_spec n i) as [Hhigh | Hhigh].
    + split; [intros _; lia | reflexivity].
    + split; [|lia]. intros H. apply nth_error_None in H.
      subst n. lia.
Qed.

(** X17.  [Timetable.get_index] returns [None] exactly when the index is
    out of range, counting from either end; an item in range gives a
    timepoint or the error of its construction, never [None]. *)
Theorem get_index_none_iff_out_of_range (self : Timetable.t) (i : Z) :
  Timetable.get_index self i = Ok None
  <-> (i < - Z.of_nat (List.length (Timetable._sequence self))
       \/ Z.of_nat (List.length (Timetable._sequence self)) <= i).
Proof.
  unfold Timetable.get_index.
  destruct (py_index (Timetable._sequence self) i) as [item|] eqn:E.
  - split.
    + destruct (wrap_mapping item); simpl; discriminate.
    + intros H. apply py_index_none in H. congruence.
  - split; [intros _; apply py_index_none; exact E | reflexivity].
Qed.

(** X18.  A negative index counts from the end of the timetable:
    [get_index(i)] is [get_index(i + len)]. *)
Theorem get_index_from_end (self : Timetable.t) (i : Z) :
  - Z.of_nat (List.length (Timetable._sequence self)) <= i < 0 ->
  Timetable.get_index self i
  = Timetable.get_index self
      (i + Z.of_nat (List.length (Timetable._sequence self))).
Proof.
  intros Hi. unfold Timetable.get_index, py_index. cbv zeta.
  assert (E1 : (i <? 0) = true) by (apply Z.ltb_lt; lia).
  assert (E2 : (i + Z.of_nat (List.length (Timetable._sequence self)) <? 0)
               = false) by (apply Z.ltb_ge; lia).
  rewrite E1. cbv iota. rewrite !E2. reflexivity.
Qed.

Lemma get_index_from_end_witness :
  - Z.of_nat (List.length (Timetable._sequence monday_timetable)) <= -1 < 0
  /\ Timetable.get_index monday_timetable (-1)
     = Ok (Some (timepoint 1 1320 (timezone Vienna))).
Proof.
  assert (Hi : - Z.of_nat (List.length (Timetable._sequence monday_timetable))
               <= -1 < 0) by (simpl; lia).
  split; [exact Hi|].
  rewrite (get_index_from_end monday_timetable (-1) Hi). reflexivity.
Defined.

(** X25.  For an index in range whose item is a mapping, [get_index]
    returns the [Timepoint] of that item in the timetable's zone. *)
Theorem get_index_in_range (self : Timetable.t) (i : Z)
  (m : list (string * Node)) :
  0 <= i < Z.of_nat (List.length (Timetable._sequence self)) ->
  nth_error (Timetable._sequence self) (Z.to_nat i) = Some (NMap m) ->
  well_formed (NMap m) ->
  Timetable.get_index self i
  = Ok (Some (Timepoint.mk m (Timetable._timezone self))).
Proof.
  intros Hi Hnth Hwf. unfold Timetable.get_index, py_index. cbv zeta.
  assert (E1 : (i <? 0) = false) by (apply Z.ltb_ge; lia).
  assert (E2 : (Z.of_nat (List.length (Timetable._sequence self)) <=? i)
               = false) by (apply Z.leb_gt; lia).
  rewrite E1. cbv iota. rewrite E1, E2. cbn [orb]. rewrite Hnth.
  rewrite (wrap_mapping_well_formed m Hwf). reflexivity.
Qed.

Lemma get_index_in_range_witness :
  0 <= 1 < Z.of_nat (List.length (Timetable._sequence monday_timetable))
  /\ Timetable.get_index monday_timetable 1
     = Ok (Some (timepoint 0 420 (timezone Vienna))).
Proof.
  assert (Hi : 0 <= 1 < Z.of_nat (List.length
                                    (Timetable._sequence monday_timetable)))
    by (simpl; lia).
  split; [exact Hi|].
  apply (get_index_in_range monday_timetable 1
           [("zone_id", NInt 0); ("m_offset", NInt 420)] Hi eq_refl).
  apply wf_map.
  - cbn. repeat (apply NoDup_cons; [cbn; intuition discriminate|]).
    apply NoDup_nil.
  - repeat (apply Forall_cons || apply Forall_nil); constructor.
Defined.

(** ** Timepoints in a pytz zone *)








(** The weeks of the gap and of the fold, half a year apart. *)
Lemma Vienna_tz_ok : tz_ok (timezone Vienna).
Proof.
  unfold tz_ok, timezone, zone_periods, offset_ok. simpl.
  split; [split; reflexivity|].
  repeat (apply Forall_cons || apply Forall_nil); split; reflexivity.
Qed.

Lemma later_week_not_earlier_witness :
  tz_ok (Timepoint._timezone sunday_0230)
  /\ instant week_of_2022_03_21 + 2 * us_per_day
     <= instant week_of_2022_10_24
  /\ exists d1 d2,
      Timepoint.get_datetime sunday_0230 week_of_2022_03_21 false = Ok d1
      /\ Timepoint.get_datetime sunday_0230 week_of_2022_10_24 false = Ok d2
      /\ instant d1 <= instant d2.
Proof.
  assert (Hlate : instant week_of_2022_03_21 + 2 * us_per_day
                  <= instant week_of_2022_10_24)
    by (vm_compute; discriminate).
  split; [exact Vienna_tz_ok|].
  split; [exact Hlate|].
  eexists. eexists. split; [vm_compute; reflexivity|].
  split; [vm_compute; reflexivity|].
  apply (get_datetime_later_week_not_earlier sunday_0230 week_of_2022_03_21
           week_of_2022_10_24 _ _ false Vienna_tz_ok Hlate);
    vm_compute; reflexivity.
Defined.

(** * Properties of the grants *)

(** X21.  [BaseGrant] keeps exactly the parameters that are not [self],
    do not start with two underscores and are not [None]; what it keeps
    it keeps unchanged. *)
Theorem BaseGrant_init_keeps (parameters : list (string * pyobj))
  (key : string) (value : pyobj) :
  In (key, value) (BaseGrant.init parameters)
  <-> In (key, value) parameters
      /\ key <> "self"
      /\ String.prefix "__" key = false
      /\ value <> PyNone.
Proof.
  unfold BaseGrant.init. rewrite filter_In. unfold BaseGrant.kept. simpl.
  split.
  - intros [Hin H]. apply andb_prop in H. destruct H as [H Hv].
    apply andb_prop in H. destruct H as [Hs Hp].
    split; [exact Hin|]. split; [|split].
    + intros ->. discriminate.
    + destruct (String.prefix "__" key); [discriminate | reflexivity].
    + intros ->. discriminate.
  - intros [Hin [Hs [Hp Hv]]]. split; [exact Hin|].
    rewrite Hp. destruct (String.eqb_spec key "self"); [contradiction|].
    destruct value; try reflexivity. contradiction Hv. reflexivity.
Qed.

(** X22.  Each grant reports its own [grant_type], whatever arguments it
    was built from; the client credentials grant reports ["password"]. *)
Theorem grants_report_their_type :
  (forall refresh_token client_id client_secret,
      getitem (RefreshTokenGrant.init refresh_token client_id client_secret)
        "grant_type" = Some (PyStr "refresh_token"))
  /\ (forall code client_id client_secret redirect_uri scope,
         getitem (AuthorizationCodeGrant.init code client_id client_secret
                    redirect_uri scope) "grant_type"
         = Some (PyStr "authorization_code"))
  /\ (forall username password client_id client_secret scope,
         getitem (ClientCredentialsGrant.init username password client_id
                    client_secret scope) "grant_type"
         = Some (PyStr "password")).
Proof.
  split; [|split]; intros; apply getitem_setitem_same.
Qed.

Lemma getitem_In {V : Type} (m : list (string * V)) (key : string) (v : V) :
  getitem m key = Some v -> In (key, v) m.
Proof.
  induction m as [|[k w] rest IH]; simpl; [discriminate|].
  destruct (String.eqb_spec k key).
  - intros H. inversion H. subst. left. reflexivity.
  - intros H. right. apply IH. exact H.
Qed.

Lemma init_value_not_None (parameters : list (string * pyobj))
  (key : string) (value : pyobj) :
  getitem (BaseGrant.init parameters) key = Some value -> value <> PyNone.
Proof.
  intros H. apply getitem_In in H. unfold BaseGrant.init in H.
  apply filter_In in H. destruct H as [_ H]. unfold BaseGrant.kept in H.
  simpl in H. apply andb_prop in H. destruct H as [_ H].
  intros ->. discriminate.
Qed.

(** What [BaseGrant] keeps under a key, for a dict of parameters. *)
Lemma getitem_init (parameters : list (string * pyobj)) (key : string) :
  NoDup (keys parameters) ->
  key <> "self" ->
  String.prefix "__" key = false ->
  getitem (BaseGrant.init parameters) key
  = match getitem parameters key with
    | Some PyNone => None
    | found => found
    end.
Proof.
  intros Hnd Hs Hp. unfold BaseGrant.init, keys in *.
  induction parameters as [|[k v] rest IH]; [reflexivity|].
  inversion Hnd as [|k' rest' Hnotin Hnd']; subst.
  cbn [filter fst snd getitem].
  destruct (String.eqb_spec k key) as [-> | Hne].
  - unfold BaseGrant.kept. rewrite Hp.
    destruct (String.eqb_spec key "self"); [contradiction|].
    assert (Hrest : getitem
                      (filter (fun item => BaseGrant.kept (fst item)
                                             (snd item)) rest) key = None).
    { destruct (getitem (filter (fun item => BaseGrant.kept (fst item)
                                               (snd item)) rest) key)
        as [w|] eqn:E; [|reflexivity].
      apply getitem_In in E. apply filter_In in E. destruct E as [E _].
      contradiction Hnotin. apply (in_map fst _ _ E). }
    destruct v; cbn [negb is_None andb getitem];
      rewrite ?String.eqb_refl; try reflexivity.
    exact Hrest.
  - destruct (BaseGrant.kept k v); cbn [getitem].
    + destruct (String.eqb_spec k key); [contradiction|].
      apply IH. exact Hnd'.
    + apply IH. exact Hnd'.
Qed.

(** X23.  The refresh grant made from any grant carries that grant's
    client id and secret and the refresh token, reports the type
    ["refresh_token"], and holds nothing else: no code, password or scope
    of the first grant passes over. *)
Theorem refresh_grant_of_a_grant (parameters : list (string * pyobj))
  (grant_type : string) (refresh_token client_id client_secret : pyobj) :
  getitem (BaseGrant._set_grant_type (BaseGrant.init parameters) grant_type)
    "client_id" = Some client_id ->
  getitem (BaseGrant._set_grant_type (BaseGrant.init parameters) grant_type)
    "client_secret" = Some client_secret ->
  refresh_token <> PyNone ->
  get_refresh_token_grant
    (BaseGrant._set_grant_type (BaseGrant.init parameters) grant_type)
    refresh_token
  = Some [("refresh_token", refresh_token);
          ("client_id", client_id);
          ("client_secret", client_secret);
          ("grant_type", PyStr "refresh_token")].
Proof.
  intros Hid Hsecret Htoken. unfold get_refresh_token_grant.
  rewrite Hid, Hsecret.
  unfold BaseGrant._set_grant_type in Hid, Hsecret.
  rewrite getitem_setitem_other in Hid by discriminate.
  rewrite getitem_setitem_other in Hsecret by discriminate.
  apply init_value_not_None in Hid. apply init_value_not_None in Hsecret.
  unfold RefreshTokenGrant.init, RefreshTokenGrant.locals, BaseGrant.init.
  cbn [filter fst snd default]. unfold BaseGrant.kept.
  destruct refresh_token; try contradiction;
    destruct client_id; try contradiction;
    destruct client_secret; try contradiction; reflexivity.
Qed.

Lemma refresh_grant_of_a_grant_witness :
  PyStr "token" <> PyNone
  /\ get_refresh_token_grant
       (AuthorizationCodeGrant.init (PyStr "code") None None None None)
       (PyStr "token")
     = Some [("refresh_token", PyStr "token");
             ("client_id", PyStr CLIENT_ID);
             ("client_secret", PyStr CLIENT_SECRET);
             ("grant_type", PyStr "refresh_token")].
Proof.
  assert (Ht : PyStr "token" <> PyNone) by discriminate.
  split; [exact Ht|].
  exact (refresh_grant_of_a_grant
           (AuthorizationCodeGrant.locals (PyStr "code") None None None None)
           "authorization_code" (PyStr "token") (PyStr CLIENT_ID)
           (PyStr CLIENT_SECRET) eq_refl eq_refl Ht).
Defined.

(** X24.  A grant can be refreshed exactly when it was given a client id
    and a client secret other than [None]: without one of them
    [get_refresh_token_grant] fails on the missing key. *)
Theorem refresh_grant_fails_iff (parameters : list (string * pyobj))
  (grant_type : string) (refresh_token : pyobj) :
  NoDup (keys parameters) ->
  get_refresh_token_grant
    (BaseGrant._set_grant_type (BaseGrant.init parameters) grant_type)
    refresh_token = None
  <-> (getitem parameters "client_id" = None
       \/ getitem parameters "client_id" = Some PyNone
       \/ getitem parameters "client_secret" = None
       \/ getitem parameters "client_secret" = Some PyNone).
Proof.
  intros Hnd. unfold get_refresh_token_grant, BaseGrant._set_grant_type.
  rewrite !getitem_setitem_other by discriminate.
  rewrite !(getitem_init parameters) by (assumption || discriminate
                                          || reflexivity).
  destruct (getitem parameters "client_id") as [[]|];
    destruct (getitem parameters "client_secret") as [[]|];
    split; intros H; try reflexivity; try discriminate; auto;
    destruct H as [H | [H | [H | H]]]; discriminate.
Qed.

Lemma refresh_grant_fails_iff_witness :
  NoDup (keys (ClientCredentialsGrant.locals (PyStr "user") (PyStr "secret")
                 (Some PyNone) None None))
  /\ get_refresh_token_grant
       (ClientCredentialsGrant.init (PyStr "user") (PyStr "secret")
          (Some PyNone) None None)
       (PyStr "token") = None.
Proof.
  assert (Hnd : NoDup (keys (ClientCredentialsGrant.locals (PyStr "user")
                               (PyStr "secret") (Some PyNone) None None))).
  { cbn. repeat (apply NoDup_cons; [cbn; intuition discriminate|]).
    apply NoDup_nil. }
  split; [exact Hnd|].
  apply (refresh_grant_fails_iff
           (ClientCredentialsGrant.locals (PyStr "user") (PyStr "secret")
              (Some PyNone) None None)
           "password" (PyStr "token") Hnd).
  right. left. reflexivity.
Defined.
